(** * FRED economic dashboard: data pipeline, statistics and logging set-up

    A shallow embedding of [app.py] and [logger_config.py].

    - Observation values are IEEE-754 binary64 numbers ([numpy.float64], the
      element type of the series that the provider client returns); they are
      modelled by the Standard Library's [spec_float] at precision 53 and
      maximal exponent 1024, with round-to-nearest-even arithmetic.
    - A pandas [Series]/[DataFrame] with its default [RangeIndex] is a list.
    - Python exceptions, [st.stop()] and the visible effects (log lines,
      Streamlit widgets, provider calls) are threaded through a small
      writer/error monad [M].
*)

From Stdlib Require Import String Ascii.
From Stdlib Require Import ZArith List Bool Lia.
From Stdlib Require Import Floats.SpecFloat.
From Stdlib Require Import Numbers.DecimalString.
From Stdlib Require Import PArith.
Import ListNotations.
Open Scope string_scope.
Open Scope list_scope.
Open Scope Z_scope.

(* ------------------------------------------------------------------------- *)
(** ** IEEE-754 binary64 scalars *)

Module Float64.

(** Every binary64 number is a [spec_float] (those that satisfy
    [valid_binary prec emax]); the statements of this file hold for all of
    [spec_float]. *)
Definition float := spec_float.

Definition prec : Z := 53.
Definition emax : Z := 1024.

Definition add : float -> float -> float := SFadd prec emax.
Definition sub : float -> float -> float := SFsub prec emax.
Definition mul : float -> float -> float := SFmul prec emax.
Definition div : float -> float -> float := SFdiv prec emax.

Definition ltb : float -> float -> bool := SFltb.
Definition leb : float -> float -> bool := SFleb.
Definition eqb : float -> float -> bool := SFeqb.

Definition nan : float := S754_nan.
Definition pos_inf : float := S754_infinity false.
Definition neg_inf : float := S754_infinity true.
Definition zero : float := S754_zero false.

Definition isnan (x : float) : bool :=
  match x with S754_nan => true | _ => false end.

Definition iszero (x : float) : bool :=
  match x with S754_zero _ => true | _ => false end.

Definition signbit (x : float) : bool :=
  match x with
  | S754_zero s | S754_infinity s | S754_finite s _ _ => s
  | S754_nan => false
  end.

(** Conversion of an integer (exact below 2^53, rounded above). *)
Definition of_Z (z : Z) : float := binary_normalize prec emax z 0 false.
Definition of_nat (n : nat) : float := of_Z (Z.of_nat n).

(** The double nearest to the decimal literal [n / 10^k], as Python reads
    a literal such as [3.6]: numerator and denominator are exact, and the
    division rounds once, to nearest-even. *)
Definition decimal (n : Z) (k : nat) : float :=
  div (of_Z n) (of_Z (10 ^ Z.of_nat k)).

(** Exact rational value [num / 2^k] or [num * 2^k] of a finite number,
    as the pair (numerator, binary exponent). *)
Definition to_dyadic (x : float) : option (Z * Z) :=
  match x with
  | S754_zero _ => Some (0, 0)
  | S754_finite s m e => Some (if s then Z.neg m else Z.pos m, e)
  | _ => None
  end.

(** The exact comparison of a finite [x] with the decimal [n / 10^k]
    ([Gt]: [x] is the greater), used to bracket a result between two decimal
    bounds. *)
Definition dyadic_cmp_decimal (x : float) (n : Z) (k : nat) : option comparison :=
  match to_dyadic x with
  | Some (m, e) =>
      (* compare m * 2^e with n / 10^k, i.e. m * 2^e * 10^k with n *)
      let p := 10 ^ Z.of_nat k in
      Some (if 0 <=? e then (m * 2 ^ e * p ?= n)
            else (m * p ?= n * 2 ^ (- e)))
  | None => None
  end.

(** A number that is not NaN is placed in the lexicographic order of
    (class, exponent, mantissa); [SFcompare] is the comparison of these
    keys. *)
Definition key (x : float) : Z * Z * Z :=
  match x with
  | S754_nan => (0, 0, 0)
  | S754_zero _ => (0, 0, 0)
  | S754_infinity true => (-2, 0, 0)
  | S754_infinity false => (2, 0, 0)
  | S754_finite true m e => (-1, - e, Z.neg m)
  | S754_finite false m e => (1, e, Z.pos m)
  end.

Definition lex_lt (a b : Z * Z * Z) : Prop :=
  let '(c1, e1, m1) := a in
  let '(c2, e2, m2) := b in
  c1 < c2 \/ (c1 = c2 /\ (e1 < e2 \/ (e1 = e2 /\ m1 < m2))).

Definition lex_le (a b : Z * Z * Z) : Prop := lex_lt a b \/ a = b.

End Float64.

Abbreviation float := Float64.float.

(* ------------------------------------------------------------------------- *)
(** ** Exceptions, effects and the program monad *)

(** A Python exception: its class name and [str(e)]. *)
Record exn := Exception { exn_class : string; exn_str : string }.

Definition IndexError := Exception "IndexError".
Definition KeyError := Exception "KeyError".
Definition ValueError := Exception "ValueError".

(** A calendar timestamp of an observation. *)
Record Timestamp := { ts_year : nat; ts_month : nat; ts_day : nat }.

(** One row of the shaped table: columns [Date], [Value], [Quarter]. *)
Record Row := { Date : Timestamp; Value : float; Quarter : string }.

Definition DataFrame := list Row.

(** The dictionary returned by [get_economic_data]. *)
Record data_dict := { data : DataFrame; title : string; units : string }.

(** A plotly figure, as far as [create_chart] determines it. *)
Inductive trace_kind := Scatter | Bar | AreaScatter.

Record Figure := {
  fig_kind : trace_kind;
  fig_x : list string;
  fig_y : list float;
  fig_markers : bool;
  fig_color_discrete_sequence : option (list string);
  fig_title : string;
  fig_xaxis_title : string;
  fig_yaxis_title : string;
  fig_template : option string;
  fig_height : option Z
}.

(** Pieces of an f-string: literal text and formatted numbers. *)
Inductive piece :=
| Txt (s : string)
| Fixed2 (v : float)          (* {v:.2f}  *)
| Fixed2Comma (v : float).    (* {v:,.2f} *)

Definition fstring := list piece.

Inductive level := DEBUG | INFO | WARNING | ERROR | CRITICAL.

(** Observable effects of one script run, in program order.
    [StDataframe rows by asc] is the table [rows] handed over sorted by the
    column [by], ascending or descending. *)
Inductive event :=
| Log (lvl : level) (msg : string)
| FredInit (api_key : string)
| FredGetSeries (series_id : string) (start_day end_day : Z)
| StSetPageConfig
| StTitle (s : string)
| StMarkdown (s : string)
| StSubheader (s : string)
| StSidebar (s : string)
| StError (msg : string)
| StPlotlyChart (fig : Figure)
| StDataframe (rows : list (string * float)) (sort_by : string) (ascending : bool)
| StMetric (label : fstring) (value : fstring) (delta : option fstring)
| StCaption (s : string).

Inductive outcome (A : Type) :=
| Ok (a : A)
| Raised (e : exn)      (* an [Exception] is propagating *)
| Stopped.              (* [st.stop()]: the script run is halted *)

Arguments Ok {A} a.
Arguments Raised {A} e.
Arguments Stopped {A}.

Module Prog.

Definition M (A : Type) : Type := outcome A * list event.

Definition ret {A} (a : A) : M A := (Ok a, []).

Definition bind {A B} (m : M A) (f : A -> M B) : M B :=
  match m with
  | (Ok a, es) => let '(o, es') := f a in (o, es ++ es')
  | (Raised e, es) => (Raised e, es)
  | (Stopped, es) => (Stopped, es)
  end.

Definition emit (e : event) : M unit := (Ok tt, [e]).
Definition raise {A} (e : exn) : M A := (Raised e, []).
Definition stop {A} : M A := (Stopped, []).

(** [try: m  except Exception as e: h e].  The script-control signal of
    [st.stop()] is not an [Exception] and passes through. *)
Definition try_except {A} (m : M A) (h : exn -> M A) : M A :=
  match m with
  | (Raised e, es) => let '(o, es') := h e in (o, es ++ es')
  | r => r
  end.

Definition result_of {A} (m : M A) : outcome A := fst m.
Definition events_of {A} (m : M A) : list event := snd m.

End Prog.

Import Prog.

Declare Scope prog_scope.
Delimit Scope prog_scope with prog.
Notation "x <- c1 ;; c2" := (bind c1 (fun x => c2))
  (at level 61, c1 at next level, right associativity) : prog_scope.
Notation "c1 ;; c2" := (bind c1 (fun _ => c2))
  (at level 61, right associativity) : prog_scope.
Open Scope prog_scope.

(* ------------------------------------------------------------------------- *)
(** ** The array and series operations the program calls *)

Module Numpy.
Import Float64.

(** The comparisons of the reductions: strict ones for the value of the
    minimum and maximum, [<=] and [>=] for their position. *)
Definition lt_op (a b : float) : bool := ltb a b.
Definition gt_op (a b : float) : bool := ltb b a.
Definition le_op (a b : float) : bool := leb a b.
Definition ge_op (a b : float) : bool := leb b a.

(** [np.minimum] / [np.maximum] on scalars, as reduced by [ndarray.min]
    and [ndarray.max]: the accumulator is kept when it is strictly before
    the next element, or NaN.  Of two equal numbers, which can differ only
    as +0.0 and -0.0, the later one is returned. *)
Definition extremum (op : float -> float -> bool) (a b : float) : float :=
  if op a b || isnan a then a else b.

Definition minimum : float -> float -> float := extremum lt_op.
Definition maximum : float -> float -> float := extremum gt_op.

Definition amin (a : list float) : M float :=
  match a with
  | [] => raise (ValueError "zero-size array to reduction operation minimum which has no identity")
  | x :: t => ret (fold_left minimum t x)
  end.

Definition amax (a : list float) : M float :=
  match a with
  | [] => raise (ValueError "zero-size array to reduction operation maximum which has no identity")
  | x :: t => ret (fold_left maximum t x)
  end.

(** [argmin] / [argmax]: scan from the left and move to position [i] only
    when [not (best op a[i])], so that the first of equal elements stays; a
    NaN, once met, is final. *)
Fixpoint arg_scan (op : float -> float -> bool)
         (best : float) (best_i i : nat) (a : list float) : nat :=
  match a with
  | [] => best_i
  | x :: t =>
      if isnan best then best_i
      else if negb (op best x) then arg_scan op x i (S i) t
      else arg_scan op best best_i (S i) t
  end.

(** The element the scan holds as [best] after looking at [x]. *)
Definition scan_best (op : float -> float -> bool) (best x : float) : float :=
  if isnan best then best
  else if negb (op best x) then x
  else best.

Definition argmin (a : list float) : M nat :=
  match a with
  | [] => raise (ValueError "attempt to get argmin of an empty sequence")
  | x :: t => ret (arg_scan le_op x 0 1 t)
  end.

Definition argmax (a : list float) : M nat :=
  match a with
  | [] => raise (ValueError "attempt to get argmax of an empty sequence")
  | x :: t => ret (arg_scan ge_op x 0 1 t)
  end.

(** Summation of a contiguous float64 array ([np.add.reduce]): pairwise
    summation with an eight-way unrolled base case, added to the identity 0.
    (Only the sign of a zero sum depends on the library version.) *)
Definition sum_loop (acc : float) (a : list float) : float :=
  fold_left add a acc.

Fixpoint zip_add (r a : list float) : list float :=
  match r, a with
  | x :: r', y :: a' => add x y :: zip_add r' a'
  | _, _ => r
  end.

(** [for (i = 8; i < n - n % 8; i += 8) r[k] += a[i+k]]: consumes the
    full blocks of eight and returns the accumulators and the rest. *)
Fixpoint blocks8 (fuel : nat) (r a : list float) : list float * list float :=
  match fuel with
  | O => (r, a)
  | S fuel' =>
      if (8 <=? length a)%nat
      then blocks8 fuel' (zip_add r (firstn 8 a)) (skipn 8 a)
      else (r, a)
  end.

Definition combine8 (r : list float) : float :=
  match r with
  | [r0; r1; r2; r3; r4; r5; r6; r7] =>
      add (add (add r0 r1) (add r2 r3)) (add (add r4 r5) (add r6 r7))
  | _ => nan
  end.

Definition PW_BLOCKSIZE : nat := 128.

(** Above the block size the array is split in two halves, the first a
    multiple of eight long.  [fuel] bounds the depth of the splitting; see
    [NumpyFacts.pairwise_sum_fuel_enough]. *)
Fixpoint pairwise_sum_fuel (fuel : nat) (a : list float) : float :=
  let n := length a in
  if (n <? 8)%nat then sum_loop zero a
  else if (n <=? PW_BLOCKSIZE)%nat then
    let '(r, rest) := blocks8 n (firstn 8 a) (skipn 8 a) in
    sum_loop (combine8 r) rest
  else
    match fuel with
    | O => nan
    | S fuel' =>
        let n2 := (n / 2)%nat in
        let n2 := (n2 - n2 mod 8)%nat in
        add (pairwise_sum_fuel fuel' (firstn n2 a))
            (pairwise_sum_fuel fuel' (skipn n2 a))
    end.

Definition pairwise_sum (a : list float) : float :=
  pairwise_sum_fuel (length a) a.

Definition sum (a : list float) : float := add zero (pairwise_sum a).

Definition nan_free (a : list float) : Prop := Forall (fun v => isnan v = false) a.

(** [b], at position [r] of [a], comes first in the order of [op], and
    no earlier element ties with it. *)
Definition first_extremum (op : float -> float -> bool)
           (a : list float) (r : nat) (b : float) : Prop :=
  nth_error a r = Some b /\
  (forall v, In v a -> op b v = true) /\
  (forall j v, (j < r)%nat -> nth_error a j = Some v -> op v b = false).

(** What a reduction and its position scan report together: [m] is an
    element of [a] that comes first in the order of [op], and it is equal,
    as a number, to the element at [r], the first position of such an
    element. *)
Definition reported_extremum (op : float -> float -> bool)
           (a : list float) (r : nat) (m : float) : Prop :=
  exists b,
    first_extremum op a r b /\
    eqb m b = true /\
    In m a /\
    (forall v, In v a -> op m v = true).

End Numpy.

Module Pandas.
Import Float64.

Definition Series := list float.

(** [s.iloc[i]] with Python's negative positions. *)
Definition iloc {A} (s : list A) (i : Z) : M A :=
  let n := Z.of_nat (length s) in
  let k := if i <? 0 then n + i else i in
  if (0 <=? k) && (k <? n) then
    match nth_error s (Z.to_nat k) with
    | Some x => ret x
    | None => raise (IndexError "single positional indexer is out-of-bounds")
    end
  else raise (IndexError "single positional indexer is out-of-bounds").

(** [df.loc[label, col]] on the default [RangeIndex]. *)
Definition loc {A} (s : list A) (label : nat) : M A :=
  match nth_error s label with
  | Some x => ret x
  | None => raise (KeyError "label not in index")
  end.

Definition empty {A} (s : list A) : bool :=
  match s with [] => true | _ => false end.

Definition fillna (fill : float) (s : Series) : Series :=
  map (fun v => if isnan v then fill else v) s.
Definition count (s : Series) : nat := length (filter (fun v => negb (isnan v)) s).

(** [Series.min()] with the default [skipna=True]: missing values are
    replaced by +inf before the reduction; NaN when nothing is left. *)
Definition min (s : Series) : M float :=
  match s with
  | [] => ret nan
  | _ => r <- Numpy.amin (fillna pos_inf s) ;;
         ret (if (count s <? 1)%nat then nan else r)
  end.

Definition max (s : Series) : M float :=
  match s with
  | [] => ret nan
  | _ => r <- Numpy.amax (fillna neg_inf s) ;;
         ret (if (count s <? 1)%nat then nan else r)
  end.

(** [Series.idxmin()] with [skipna=True]: first position of the minimum of
    the filled values; fails on an all-missing series.  (Older versions of
    the library return NaN there and the label lookup that follows fails
    instead: either way the caller sees an exception.) *)
Definition idxmin (s : Series) : M nat :=
  i <- Numpy.argmin (fillna pos_inf s) ;;
  if (count s <? 1)%nat then raise (ValueError "Encountered all NA values")
  else ret i.

Definition idxmax (s : Series) : M nat :=
  i <- Numpy.argmax (fillna neg_inf s) ;;
  if (count s <? 1)%nat then raise (ValueError "Encountered all NA values")
  else ret i.

(** [Series.mean()] with [skipna=True]: missing values count as 0 in the
    sum and are left out of the count; NaN when nothing is left. *)
Definition mean (s : Series) : float :=
  let n := count s in
  if (0 <? n)%nat then div (Numpy.sum (fillna zero s)) (of_nat n) else nan.

End Pandas.

(* ------------------------------------------------------------------------- *)
(** ** logger_config.py *)

Module LoggerConfig.

(** Numeric values of the standard levels. *)
Definition levelno (l : level) : Z :=
  match l with
  | DEBUG => 10 | INFO => 20 | WARNING => 30 | ERROR => 40 | CRITICAL => 50
  end.

Inductive handler_kind :=
| StreamHandler
| RotatingFileHandler (filename : string) (maxBytes backupCount : Z).

Record Handler := {
  h_kind : handler_kind;
  h_level : level;
  h_formatter : string
}.

Record Logger := {
  lg_name : string;
  lg_level : level;
  lg_handlers : list Handler
}.

Definition console_format := "%(levelname)s - %(message)s".
Definition file_format :=
  "%(asctime)s - %(name)s - %(levelname)s - %(filename)s:%(lineno)d - %(message)s".

Definition log_file_of_date (current_date : string) : string :=
  ("logs/app_" ++ current_date ++ ".log")%string.

(** [Logger.log]: the record passes the logger's level, then every handler
    whose own level it reaches receives it. *)
Definition receives (h : Handler) (lvl : level) : bool :=
  levelno (h_level h) <=? levelno lvl.

Definition dispatch (lg : Logger) (lvl : level) : list Handler :=
  if levelno (lg_level lg) <=? levelno lvl
  then filter (fun h => receives h lvl) (lg_handlers lg)
  else [].

(** What [setup_logging] does besides building the logger: whether the
    [logs] directory had to be made, and the handlers that received the
    first record, "Logging initialized". *)
Record setup_effects := {
  made_logs_dir : bool;
  first_record : level * string;
  first_record_receivers : list Handler
}.

(** [setup_logging()]: [current_date] is [datetime.now().strftime('%Y-%m-%d')]
    and [existing] the handlers the named logger carries from an earlier run
    of the script (they are cleared). *)
Definition setup_logging (logs_dir_exists : bool) (current_date : string)
           (existing : list Handler) : Logger * setup_effects :=
  let makedirs := negb logs_dir_exists in
  let log_file := log_file_of_date current_date in
  let handlers := match existing with [] => existing | _ => [] end in
  let console_handler :=
    {| h_kind := StreamHandler; h_level := INFO; h_formatter := console_format |} in
  let file_handler :=
    {| h_kind := RotatingFileHandler log_file (10 * 1024 * 1024) 5;
       h_level := DEBUG; h_formatter := file_format |} in
  let handlers := handlers ++ [console_handler] in
  let handlers := handlers ++ [file_handler] in
  let logger :=
    {| lg_name := "fred_dashboard"; lg_level := DEBUG; lg_handlers := handlers |} in
  (logger,
   {| made_logs_dir := makedirs;
      first_record := (INFO, "Logging initialized");
      first_record_receivers := dispatch logger INFO |}).

Definition is_console (h : Handler) : bool :=
  match h_kind h with StreamHandler => true | _ => false end.
Definition is_file (h : Handler) : bool :=
  match h_kind h with RotatingFileHandler _ _ _ => true | _ => false end.

(** File name, size limit and backup count of the logger's rotating file
    handler. *)
Fixpoint rotating_file (hs : list Handler) : option (string * Z * Z) :=
  match hs with
  | [] => None
  | h :: t =>
      match h_kind h with
      | RotatingFileHandler f m b => Some (f, m, b)
      | StreamHandler => rotating_file t
      end
  end.

(** The files kept by a [RotatingFileHandler]: the size of the base file
    and of the backups [.1], [.2], ... *)
Record log_files := { base_size : Z; backups : list Z }.

Definition shouldRollover (maxBytes : Z) (fs : log_files) (msg_len : Z) : bool :=
  (0 <? maxBytes) && (maxBytes <=? base_size fs + msg_len).

(** [doRollover]: [.i] becomes [.i+1] up to [backupCount], the base file
    becomes [.1], and a new base file is opened; with no backups allowed
    the base file is reopened for appending. *)
Definition doRollover (backupCount : Z) (fs : log_files) : log_files :=
  if 0 <? backupCount
  then {| base_size := 0;
          backups := firstn (Z.to_nat backupCount) (base_size fs :: backups fs) |}
  else fs.

Definition emit_record (maxBytes backupCount : Z) (fs : log_files) (msg_len : Z)
  : log_files :=
  let fs := if shouldRollover maxBytes fs msg_len
            then doRollover backupCount fs else fs in
  {| base_size := base_size fs + msg_len; backups := backups fs |}.

(** A record as a handler sees it: the day it was created on, its level and
    the length of its formatted line. *)
Record LogRecord := {
  created_day : string;
  levelname : level;
  line_length : Z
}.

(** What writing one record did: the file the line went to, whether the
    file was rolled over first, and the files afterwards. *)
Record written := {
  w_file : string;
  w_rolled : bool;
  w_files : log_files
}.

(** [Handler.emit].  The rotating file handler appends the line to the file
    it was built with, after a rollover when [shouldRollover] asks for one;
    neither the file name nor the rollover looks at the day of the record.
    The console handler writes no file. *)
Definition handler_emit (h : Handler) (fs : log_files) (r : LogRecord)
  : option written :=
  match h_kind h with
  | StreamHandler => None
  | RotatingFileHandler f m b =>
      Some {| w_file := f;
              w_rolled := shouldRollover m fs (line_length r);
              w_files := emit_record m b fs (line_length r) |}
  end.

(** In the words of the specification, a daily-rotating file: a record
    created on another day than the one the file was started on does not
    simply go on in that file; it is written to another file, or the file
    is rolled over first. *)
Definition daily_rotating (started_on : string) (h : Handler) : Prop :=
  forall fs r w,
    created_day r <> started_on ->
    handler_emit h fs r = Some w ->
    w_file w <> log_file_of_date started_on \/ w_rolled w = true.

End LoggerConfig.

(* ------------------------------------------------------------------------- *)
(** ** app.py *)

Module App.
Import Float64.

(** [str(n)] for a non-negative integer. *)
Definition str_nat (n : nat) : string := NilEmpty.string_of_uint (Nat.to_uint n).

(** [Timestamp.to_period('Q')] rendered by [astype(str)], e.g. ["2024Q1"]. *)
Definition quarter_of_month (m : nat) : nat := ((m - 1) / 3 + 1)%nat.
Definition to_period_Q (t : Timestamp) : string :=
  (str_nat (ts_year t) ++ "Q" ++ str_nat (quarter_of_month (ts_month t)))%string.

(** The client object built by [Fred(api_key=...)]. *)
Record Fred := { api_key : string }.

(** What one script run reads from outside: the environment variable, the
    behaviour of the provider's client library ([Fred_ctor key] is the
    exception the constructor raises, if any; [get_series] the answer to a
    request), and the clock (in days). *)
Record World := {
  FRED_API_KEY : option string;
  Fred_ctor : string -> option exn;
  get_series : string -> Z -> Z -> exn + list (Timestamp * float);
  now : Z
}.

(** The values the sidebar widgets return. *)
Record Widgets := {
  selected_indicator : string;
  chart_type : string;
  quarters : Z
}.

Record indicator := { series_id : string; ind_units : string }.

Definition indicators : list (string * indicator) :=
  [ ("Gross Domestic Product (GDP)",
      {| series_id := "GDP"; ind_units := "Billions of Dollars" |});
    ("Real GDP",
      {| series_id := "GDPC1"; ind_units := "Billions of Chained 2017 Dollars" |});
    ("GDP Growth Rate",
      {| series_id := "A191RL1Q225SBEA";
         ind_units := "Percent Change from Preceding Period" |});
    ("Personal Consumption Expenditures",
      {| series_id := "PCE"; ind_units := "Billions of Dollars" |});
    ("Unemployment Rate",
      {| series_id := "UNRATE"; ind_units := "Percent" |});
    ("Consumer Price Index (CPI)",
      {| series_id := "CPIAUCSL"; ind_units := "Index 1982-1984=100" |});
    ("Federal Funds Rate",
      {| series_id := "FEDFUNDS"; ind_units := "Percent" |}) ].

Definition descriptions : list (string * string) :=
  [ ("Gross Domestic Product (GDP)", "GDP is the total monetary or market value of all finished goods and services produced within a country's borders in a specific time period.");
    ("Real GDP", "Real GDP is a macroeconomic measure of the value of economic output adjusted for price changes (inflation or deflation).");
    ("GDP Growth Rate", "This measures the annualized percentage change in GDP from the previous quarter.");
    ("Personal Consumption Expenditures", "PCE measures consumer spending on goods and services in the U.S. economy.");
    ("Unemployment Rate", "The unemployment rate represents the number of unemployed as a percentage of the labor force.");
    ("Consumer Price Index (CPI)", "CPI measures the average change over time in the prices paid by urban consumers for a market basket of consumer goods and services.");
    ("Federal Funds Rate", "The federal funds rate is the interest rate at which depository institutions trade federal funds with each other overnight.") ].

(** [needle in hay] on strings. *)
Fixpoint contains (needle hay : string) : bool :=
  String.prefix needle hay ||
  match hay with
  | EmptyString => false
  | String _ rest => contains needle rest
  end.

Fixpoint dict_get {V} (d : list (string * V)) (k : string) : option V :=
  match d with
  | [] => None
  | (k', v) :: t => if String.eqb k' k then Some v else dict_get t k
  end.

(** [repr(s)] of a string: in single quotes, or in double quotes when the
    string holds a single quote and no double quote; the quote used, the
    backslash and the control characters are escaped.  (Bytes above 127,
    the encoding of printable non-ASCII characters, are kept.) *)
Definition hex_digit (n : nat) : ascii :=
  match n with
  | 0%nat => "0" | 1%nat => "1" | 2%nat => "2" | 3%nat => "3" | 4%nat => "4"
  | 5%nat => "5" | 6%nat => "6" | 7%nat => "7" | 8%nat => "8" | 9%nat => "9"
  | 10%nat => "a" | 11%nat => "b" | 12%nat => "c" | 13%nat => "d" | 14%nat => "e"
  | _ => "f"
  end%char.

Definition has_char (c : ascii) (s : string) : bool :=
  existsb (Ascii.eqb c) (list_ascii_of_string s).

Definition repr_char (quote c : ascii) : string :=
  let n := nat_of_ascii c in
  if Ascii.eqb c quote || Ascii.eqb c "\" then String "\" (String c "")
  else if (n =? 9)%nat then "\t"
  else if (n =? 10)%nat then "\n"
  else if (n =? 13)%nat then "\r"
  else if (n <? 32)%nat || (n =? 127)%nat then
    String "\" (String "x" (String (hex_digit (n / 16)) (String (hex_digit (n mod 16)) "")))
  else String c "".

Definition py_repr (s : string) : string :=
  let dquote := "034"%char in
  let quote := if has_char "'" s && negb (has_char dquote s) then dquote else "'"%char in
  (String quote (String.concat "" (map (repr_char quote) (list_ascii_of_string s)))
   ++ String quote "")%string.

(** [d[k]]: a missing key raises [KeyError], whose text is [repr(k)]. *)
Definition dict_item {V} (d : list (string * V)) (k : string) : M V :=
  match dict_get d k with
  | Some v => ret v
  | None => raise (KeyError (py_repr k))
  end.

(** The statistics shown in the right-hand column (they are computed and
    displayed, not stored). *)
Record SummaryStats := {
  latest_value : float;
  latest_quarter : string;
  pct_change : option float;
  min_val : float;
  min_quarter : string;
  max_val : float;
  max_quarter : string;
  mean_value : float
}.

(** *** Plotting calls *)

Definition axis_label (labels : list (string * string)) (col : string) : string :=
  match dict_get labels col with Some l => l | None => col end.

Definition px_figure (kind : trace_kind) (df : DataFrame) (x y : string)
           (ttl : string) (labels : list (string * string))
           (markers : bool) (colors : option (list string)) : Figure :=
  {| fig_kind := kind;
     fig_x := map Quarter df;
     fig_y := map Value df;
     fig_markers := markers;
     fig_color_discrete_sequence := colors;
     fig_title := ttl;
     fig_xaxis_title := axis_label labels x;
     fig_yaxis_title := axis_label labels y;
     fig_template := None;
     fig_height := None |}.

Definition px_line df x y ttl labels markers :=
  px_figure Scatter df x y ttl labels markers None.
Definition px_bar df x y ttl labels colors :=
  px_figure Bar df x y ttl labels false (Some colors).
Definition px_area df x y ttl labels colors :=
  px_figure AreaScatter df x y ttl labels false (Some colors).

Definition update_layout (fig : Figure) (xaxis_title yaxis_title template : string)
           (height : Z) : Figure :=
  {| fig_kind := fig_kind fig;
     fig_x := fig_x fig;
     fig_y := fig_y fig;
     fig_markers := fig_markers fig;
     fig_color_discrete_sequence := fig_color_discrete_sequence fig;
     fig_title := fig_title fig;
     fig_xaxis_title := xaxis_title;
     fig_yaxis_title := yaxis_title;
     fig_template := Some template;
     fig_height := Some height |}.

Definition falsy (s : option string) : bool :=
  match s with None | Some "" => true | _ => false end.

(** [pd.DataFrame(data)], [reset_index], the column names, and the
    derived [Quarter] column. *)
Definition shape (obs : list (Timestamp * float)) : DataFrame :=
  map (fun o => {| Date := fst o; Value := snd o; Quarter := to_period_Q (fst o) |}) obs.

Definition y_label (ttl unit_label : string) : string :=
  (ttl ++ " (" ++ unit_label ++ ")")%string.

Definition chart_title (ttl : string) (df : DataFrame) : string :=
  (ttl ++ " - Last " ++ str_nat (length df) ++ " Quarters")%string.

Definition create_chart (d : data_dict) (chart_type : string) : M (option Figure) :=
  try_except
    (emit (Log INFO ("Creating " ++ chart_type ++ " chart for " ++ title d)) ;;
     let df := data d in
     let ttl := title d in
     let unit_label := units d in
     let labels := [("Value", y_label ttl unit_label); ("Quarter", "")] in
     let fig :=
       if String.eqb chart_type "Line" then
         px_line df "Quarter" "Value" (chart_title ttl df) labels true
       else if String.eqb chart_type "Bar" then
         px_bar df "Quarter" "Value" (chart_title ttl df) labels ["#1E88E5"]
       else if String.eqb chart_type "Area" then
         px_area df "Quarter" "Value" (chart_title ttl df) labels ["#1E88E5"]
       else
         px_line df "Quarter" "Value" (chart_title ttl df) labels false in
     let fig := update_layout fig "" (y_label ttl unit_label) "plotly_white" 500 in
     ret (Some fig))
    (fun e =>
       emit (Log ERROR ("Error creating chart: " ++ exn_str e)) ;;
       emit (StError ("Error creating chart: " ++ exn_str e)) ;;
       ret None).

(** [calculate_change], with the scalar division left open: [truediv] is
    the [/] of the values' type and may raise.  The program runs it on the
    [numpy.float64] elements of the [Value] column, see [calculate_change]
    below; the variant with Python's own floats shows what the handler does
    with a [ZeroDivisionError]. *)
Definition calculate_change_with (truediv : float -> float -> M float)
           (d : data_dict) : M (option float) :=
  try_except
    (let df := data d in
     if (2 <=? length df)%nat then
       oldest <- Pandas.iloc (map Value df) 0 ;;
       newest <- Pandas.iloc (map Value df) (-1) ;;
       q <- truediv (sub newest oldest) oldest ;;
       let pct_change := mul q (of_Z 100) in
       ret (Some pct_change)
     else ret None)
    (fun e =>
       emit (Log ERROR ("Error calculating change: " ++ exn_str e)) ;;
       ret None).

(** Division of [numpy.float64] scalars: IEEE-754, never raises. *)
Definition np_truediv (a b : float) : M float := ret (div a b).

(** Division of built-in Python floats: raises on a zero divisor. *)
Definition py_truediv (a b : float) : M float :=
  if iszero b then raise (Exception "ZeroDivisionError" "float division by zero")
  else ret (div a b).

Definition calculate_change : data_dict -> M (option float) :=
  calculate_change_with np_truediv.

(** The "Key Statistics" column of [main]. *)
Definition key_statistics (d : data_dict) (unit_label : string) : M SummaryStats :=
  emit (StSubheader "Key Statistics") ;;
  let df := data d in
  latest_value <- Pandas.iloc (map Value df) (-1) ;;
  latest_quarter <- Pandas.iloc (map Quarter df) (-1) ;;
  pct_change <- calculate_change d ;;
  emit (StMetric [Txt "Latest Value ("; Txt latest_quarter; Txt ")"]
                 [Fixed2Comma latest_value; Txt " "; Txt unit_label]
                 (match pct_change with
                  | Some p => Some [Fixed2 p; Txt "%"]
                  | None => None
                  end)) ;;
  min_val <- Pandas.min (map Value df) ;;
  i <- Pandas.idxmin (map Value df) ;;
  min_quarter <- Pandas.loc (map Quarter df) i ;;
  emit (StMetric [Txt "Minimum"] [Fixed2Comma min_val] None) ;;
  emit (StCaption ("Quarter: " ++ min_quarter)) ;;
  max_val <- Pandas.max (map Value df) ;;
  j <- Pandas.idxmax (map Value df) ;;
  max_quarter <- Pandas.loc (map Quarter df) j ;;
  emit (StMetric [Txt "Maximum"] [Fixed2Comma max_val] None) ;;
  emit (StCaption ("Quarter: " ++ max_quarter)) ;;
  let mean_value := Pandas.mean (map Value df) in
  emit (StMetric [Txt "Average"] [Fixed2Comma mean_value] None) ;;
  ret {| latest_value := latest_value; latest_quarter := latest_quarter;
         pct_change := pct_change;
         min_val := min_val; min_quarter := min_quarter;
         max_val := max_val; max_quarter := max_quarter;
         mean_value := mean_value |}.

Definition values (d : data_dict) : Pandas.Series := map Value (data d).
Definition quarters_col (d : data_dict) : list string := map Quarter (data d).

(** The percent change written once, for the statements below. *)
Definition pct (oldest newest : float) : float :=
  mul (div (sub newest oldest) oldest) (of_Z 100).

Definition is_chart (e : event) : bool :=
  match e with StPlotlyChart _ => true | _ => false end.

Definition is_provider_call (e : event) : bool :=
  match e with FredGetSeries _ _ _ | FredInit _ => true | _ => false end.

Definition error_messages (es : list event) : list string :=
  flat_map (fun e => match e with StError m => [m] | _ => [] end) es.

(** The arithmetic mean over all rows, in the words of the specification:
    the sum of every row's value over the number of rows. *)
Definition mean_over_all_rows (s : Pandas.Series) : float :=
  div (Numpy.sum s) (of_nat (length s)).

Section Script.
Variable W : World.

Definition key_not_found : M (option Fred) :=
  emit (Log ERROR "FRED API key not found in environment variables") ;;
  emit (StError "FRED API key not found. Please check your .env file.") ;;
  ret None.

Definition initialize_fred : M (option Fred) :=
  try_except
    (emit (Log INFO "Initializing FRED API client") ;;
     if falsy (FRED_API_KEY W) then key_not_found
     else
       match FRED_API_KEY W with
       | None => key_not_found
       | Some key =>
           emit (FredInit key) ;;
           match Fred_ctor W key with
           | Some e => raise e
           | None => ret (Some {| api_key := key |})
           end
       end)
    (fun e =>
       emit (Log ERROR ("Error initializing FRED API client: " ++ exn_str e)) ;;
       emit (StError ("Error initializing FRED API: " ++ exn_str e)) ;;
       ret None).

(** [fred.get_series(series_id, start_date, end_date)]: one request. *)
Definition fred_get_series (fred : Fred) (sid : string) (start_date end_date : Z)
  : M (list (Timestamp * float)) :=
  emit (FredGetSeries sid start_date end_date) ;;
  match get_series W sid start_date end_date with
  | inl e => raise e
  | inr obs => ret obs
  end.

Definition get_economic_data (fred : Fred) (sid ttl unit_label : string) (nq : Z)
  : M (option data_dict) :=
  try_except
    (emit (Log INFO ("Fetching " ++ ttl ++ " data with series ID: " ++ sid)) ;;
     let end_date := now W in
     let start_date := end_date - nq * 91 in
     obs <- fred_get_series fred sid start_date end_date ;;
     if Pandas.empty obs then
       emit (Log WARNING ("No data returned for series " ++ sid)) ;;
       ret None
     else
       let df := shape obs in
       emit (Log INFO ("Successfully retrieved " ++ str_nat (length df)
                       ++ " data points for " ++ ttl)) ;;
       ret (Some {| data := df; title := ttl; units := unit_label |}))
    (fun e =>
       emit (Log ERROR ("Error fetching data for " ++ sid ++ ": " ++ exn_str e)) ;;
       emit (StError ("Error fetching " ++ ttl ++ " data: " ++ exn_str e)) ;;
       ret None).

(** The left-hand column: the chart and the raw-data table, which is
    [df[['Quarter', 'Value']].sort_values('Quarter', ascending=False)]. *)
Definition chart_column (d : data_dict) (chart_type : string) : M unit :=
  fig <- create_chart d chart_type ;;
  match fig with
  | Some f =>
      emit (StPlotlyChart f) ;;
      emit (StDataframe (map (fun r => (Quarter r, Value r)) (data d))
                        "Quarter" false)
  | None => ret tt
  end.

Definition no_data_message (ind : string) : string :=
  ("No data available for " ++ ind ++ ". Please try another indicator.")%string.

Definition main (ui : Widgets) : M unit :=
  try_except
    (emit StSetPageConfig ;;
     emit (StTitle "📊 U.S. Economic Data Dashboard") ;;
     emit (StMarkdown "This dashboard shows key economic indicators from the Federal Reserve Economic Data (FRED).") ;;
     fred <- initialize_fred ;;
     fred <- match fred with
             | None => stop
             | Some f => ret f
             end ;;
     emit (StSidebar "Options") ;;
     emit (StSidebar "Economic Indicators") ;;
     let selected := selected_indicator ui in
     indicator_details <- dict_item indicators selected ;;
     let sid := series_id indicator_details in
     let unit_label := ind_units indicator_details in
     data_dict <- get_economic_data fred sid selected unit_label (quarters ui) ;;
     match data_dict with
     | Some d =>
         emit (Log INFO ("Successfully pulled " ++ str_nat (length (data d))
                         ++ " data points for " ++ selected))
     | None =>
         emit (Log WARNING ("No data returned for " ++ selected))
     end ;;
     match data_dict with
     | Some d =>
         if negb (Pandas.empty (data d)) then
           chart_column d (chart_type ui) ;;
           key_statistics d unit_label ;;
           emit (StSubheader "About this Indicator") ;;
           emit (StMarkdown (match dict_get descriptions selected with
                             | Some s => s
                             | None => "No description available."
                             end))
         else emit (StError (no_data_message selected))
     | None => emit (StError (no_data_message selected))
     end ;;
     emit (StSidebar "---") ;;
     emit (StCaption "Data source: Federal Reserve Economic Data (FRED)") ;;
     emit (StCaption "St. Louis Federal Reserve Bank"))
    (fun e =>
       emit (Log ERROR ("Application error: " ++ exn_str e)) ;;
       emit (StError ("An error occurred: " ++ exn_str e))).

End Script.

End App.


(* ------------------------------------------------------------------------- *)
(** ** Concrete tables and worlds used in the examples *)

Module Scenario.
Import Float64 App.

(** The first day of quarter [q] of year [y]. *)
Definition quarter_start (y q : nat) : Timestamp :=
  {| ts_year := y; ts_month := (3 * (q - 1) + 1)%nat; ts_day := 1 |}.

Definition table (ttl unit_label : string) (obs : list (Timestamp * float)) : data_dict :=
  {| data := shape obs; title := ttl; units := unit_label |}.

(** Eight quarterly unemployment-rate points, oldest first. *)
Definition unrate_values : list float :=
  [ decimal 35 1; decimal 36 1; decimal 37 1; decimal 39 1;
    decimal 40 1; decimal 38 1; decimal 37 1; decimal 36 1 ].

Definition unrate_obs : list (Timestamp * float) :=
  combine [ quarter_start 2022 1; quarter_start 2022 2; quarter_start 2022 3;
            quarter_start 2022 4; quarter_start 2023 1; quarter_start 2023 2;
            quarter_start 2023 3; quarter_start 2023 4 ]
          unrate_values.

Definition d_unrate : data_dict := table "Unemployment Rate" "Percent" unrate_obs.

(** Two rows, the oldest value exactly zero. *)
Definition d_zero_oldest : data_dict :=
  table "Federal Funds Rate" "Percent"
        [ (quarter_start 2021 1, zero); (quarter_start 2021 2, of_Z 1) ].


(** Two rows, the newest observation missing (the provider's "." marker). *)
Definition d_missing : data_dict :=
  table "Unemployment Rate" "Percent"
        [ (quarter_start 2025 3, of_Z 1); (quarter_start 2025 4, nan) ].

(** Two equal minima and two equal maxima. *)
Definition d_ties : data_dict :=
  table "Federal Funds Rate" "Percent"
        [ (quarter_start 2020 1, of_Z 2); (quarter_start 2020 2, of_Z 1);
          (quarter_start 2020 3, of_Z 2); (quarter_start 2020 4, of_Z 1) ].

(** A +0.0 followed by a -0.0. *)
Definition d_zeros : data_dict :=
  table "GDP Growth Rate" "Percent"
        [ (quarter_start 2020 1, S754_zero false); (quarter_start 2020 2, S754_zero true) ].

Definition d_gdp : data_dict :=
  table "Gross Domestic Product (GDP)" "Billions of Dollars"
        [ (quarter_start 2024 1, of_Z 28000); (quarter_start 2024 2, of_Z 28500) ].

(** A run without credential, and runs whose provider answers with a
    fixed series. *)
Definition W_no_key : World :=
  {| FRED_API_KEY := None;
     Fred_ctor := fun _ => None;
     get_series := fun _ _ _ => inr unrate_obs;
     now := 20000 |}.

Definition W_serving (obs : list (Timestamp * float)) : World :=
  {| FRED_API_KEY := Some "0123456789abcdef0123456789abcdef";
     Fred_ctor := fun _ => None;
     get_series := fun _ _ _ => inr obs;
     now := 20000 |}.

Definition ui_unrate : Widgets :=
  {| selected_indicator := "Unemployment Rate"; chart_type := "Line"; quarters := 8 |}.

End Scenario.
From Stdlib Require Import DecimalNat.

(* ------------------------------------------------------------------------- *)
(** ** The window of a request, in Python's dates *)

Module Window.

(** The clock counts days from 1970-01-01, whose ordinal
    ([date.toordinal()]) is 719163; a [datetime] lies between 0001-01-01
    (ordinal 1) and 9999-12-31 (ordinal 3652059), and [timedelta(days=n)]
    takes [n] of magnitude at most 999999999. *)
Definition epoch_ordinal : Z := 719163.
Definition max_ordinal : Z := 3652059.
Definition max_delta_days : Z := 999999999.

Definition valid_day (d : Z) : bool :=
  (1 <=? d + epoch_ordinal) && (d + epoch_ordinal <=? max_ordinal).

(** [datetime.now() - timedelta(days=quarters * 91)] has a value.  Where it
    has none Python raises [OverflowError] at that line, before the
    provider is asked, and [App.get_economic_data], which computes the
    window on the integers, does not describe the call. *)
Definition window_representable (now nq : Z) : bool :=
  (Z.abs (nq * 91) <=? max_delta_days) && valid_day now && valid_day (now - nq * 91).

End Window.

(* ------------------------------------------------------------------------- *)
(** ** What a run shows: counting and filtering its events *)

Module Trace.

Definition is_get_series (e : event) : bool :=
  match e with FredGetSeries _ _ _ => true | _ => false end.

Definition is_st_error (e : event) : bool :=
  match e with StError _ => true | _ => false end.

(** The widgets of the statistics column. *)
Definition is_stats_widget (e : event) : bool :=
  match e with StSubheader _ | StMetric _ _ _ | StCaption _ => true | _ => false end.

Definition is_metric (e : event) : bool :=
  match e with StMetric _ _ _ => true | _ => false end.

Definition count_events (P : event -> bool) (es : list event) : nat :=
  length (filter P es).

(** The requests a run sends to the provider, in order. *)
Definition requests (es : list event) : list (string * Z * Z) :=
  flat_map (fun e => match e with
                     | FredGetSeries sid a b => [(sid, a, b)]
                     | _ => []
                     end) es.

Definition charts (es : list event) : list Figure :=
  flat_map (fun e => match e with StPlotlyChart f => [f] | _ => [] end) es.

(** A computation that shows nothing. *)
Definition silent {A} (m : M A) : Prop := events_of m = [].

(** A computation all of whose events satisfy [P], whatever its outcome. *)
Definition emits_only {A} (P : event -> bool) (m : M A) : Prop :=
  forallb P (events_of m) = true.

(** A computation that shows nothing and does not halt the script. *)
Definition pure_op {A} (m : M A) : Prop :=
  events_of m = [] /\ result_of m <> Stopped.

(** A computation that shows only events satisfying [P] and does not halt
    the script. *)
Definition shows_only {A} (P : event -> bool) (m : M A) : Prop :=
  emits_only P m /\ result_of m <> Stopped.

End Trace.

(** ** The fixed parts of what [main] shows *)

Module Page.
Import App.

Definition header_events : list event :=
  [ StSetPageConfig;
    StTitle "📊 U.S. Economic Data Dashboard";
    StMarkdown "This dashboard shows key economic indicators from the Federal Reserve Economic Data (FRED)." ].

Definition client_events (key : string) : list event :=
  [ Log INFO "Initializing FRED API client"; FredInit key ].

Definition sidebar_events : list event :=
  [ StSidebar "Options"; StSidebar "Economic Indicators" ].

Definition footer_events : list event :=
  [ StSidebar "---";
    StCaption "Data source: Federal Reserve Economic Data (FRED)";
    StCaption "St. Louis Federal Reserve Bank" ].

(** The table [get_economic_data] builds for the selection. *)
Definition table_of (ui : Widgets) (ind : indicator) (obs : list (Timestamp * float))
  : data_dict :=
  {| data := shape obs; title := selected_indicator ui; units := ind_units ind |}.

(** What the run shows once the table is there, up to the statistics. *)
Definition data_events (W : World) (ui : Widgets) (ind : indicator)
           (d : data_dict) (fig : Figure) : list event :=
  [ Log INFO ("Fetching " ++ selected_indicator ui ++ " data with series ID: "
              ++ series_id ind);
    FredGetSeries (series_id ind) (now W - quarters ui * 91) (now W);
    Log INFO ("Successfully retrieved " ++ str_nat (length (data d))
              ++ " data points for " ++ selected_indicator ui);
    Log INFO ("Successfully pulled " ++ str_nat (length (data d))
              ++ " data points for " ++ selected_indicator ui);
    Log INFO ("Creating " ++ chart_type ui ++ " chart for " ++ selected_indicator ui);
    StPlotlyChart fig;
    StDataframe (map (fun r => (Quarter r, Value r)) (data d)) "Quarter" false ].

(** What follows the statistics, by their outcome. *)
Definition after_statistics {A} (ui : Widgets) (r : outcome A) : list event :=
  match r with
  | Ok _ =>
      [ StSubheader "About this Indicator";
        StMarkdown (match dict_get descriptions (selected_indicator ui) with
                    | Some s => s
                    | None => "No description available."
                    end) ] ++ footer_events
  | Raised e =>
      [ Log ERROR ("Application error: " ++ exn_str e);
        StError ("An error occurred: " ++ exn_str e) ]
  | Stopped => []
  end.

(** The ways one run can go, by what it reads from the environment, the
    catalog and the provider. *)
Inductive run_case (W : World) (ui : Widgets) : Prop :=
| NoKey :
    falsy (FRED_API_KEY W) = true -> run_case W ui
| ClientError (key : string) (e : exn) :
    FRED_API_KEY W = Some key -> key <> "" -> Fred_ctor W key = Some e ->
    run_case W ui
| UnknownIndicator (key : string) :
    FRED_API_KEY W = Some key -> key <> "" -> Fred_ctor W key = None ->
    dict_get indicators (selected_indicator ui) = None ->
    run_case W ui
| ProviderError (key : string) (ind : indicator) (e : exn) :
    FRED_API_KEY W = Some key -> key <> "" -> Fred_ctor W key = None ->
    dict_get indicators (selected_indicator ui) = Some ind ->
    get_series W (series_id ind) (now W - quarters ui * 91) (now W) = inl e ->
    run_case W ui
| EmptySeries (key : string) (ind : indicator) :
    FRED_API_KEY W = Some key -> key <> "" -> Fred_ctor W key = None ->
    dict_get indicators (selected_indicator ui) = Some ind ->
    get_series W (series_id ind) (now W - quarters ui * 91) (now W) = inr [] ->
    run_case W ui
| WithData (key : string) (ind : indicator)
           (o : Timestamp * float) (obs : list (Timestamp * float)) :
    FRED_API_KEY W = Some key -> key <> "" -> Fred_ctor W key = None ->
    dict_get indicators (selected_indicator ui) = Some ind ->
    get_series W (series_id ind) (now W - quarters ui * 91) (now W)
      = inr (o :: obs) ->
    run_case W ui.

End Page.

(** ** Writing a sequence of records through the rotating file handler *)

Module LogWriting.
Import LoggerConfig.

(** The files after the records of the given lengths have been emitted one
    after the other. *)
Definition write_all (maxBytes backupCount : Z) (fs : log_files) (lens : list Z)
  : log_files :=
  fold_left (emit_record maxBytes backupCount) lens fs.

End LogWriting.

(** ** Reading a quarter label *)

Module Labels.

Definition is_Q (c : ascii) : bool := Ascii.eqb c "Q".

(** No letter Q in the string (as in every decimal numeral). *)
Fixpoint no_Q (s : string) : bool :=
  match s with
  | EmptyString => true
  | String c rest => negb (is_Q c) && no_Q rest
  end.

End Labels.

(** ** Further tables and worlds for the examples *)

Module Scenario2.
Import Float64 App Scenario.

(** The newest value equals the oldest. *)
Definition d_flat : data_dict :=
  table "Federal Funds Rate" "Percent"
        [ (quarter_start 2019 1, of_Z 5); (quarter_start 2019 2, of_Z 7);
          (quarter_start 2019 3, of_Z 5) ].

(** Three monthly observations of one quarter and one of the next. *)
Definition monthly_obs : list (Timestamp * float) :=
  [ ({| ts_year := 2024; ts_month := 1; ts_day := 1 |}, decimal 37 1);
    ({| ts_year := 2024; ts_month := 2; ts_day := 1 |}, decimal 39 1);
    ({| ts_year := 2024; ts_month := 3; ts_day := 1 |}, nan);
    ({| ts_year := 2024; ts_month := 4; ts_day := 1 |}, decimal 38 1) ].

(** A provider that fails on every request. *)
Definition W_failing (msg : string) : World :=
  {| FRED_API_KEY := Some "0123456789abcdef0123456789abcdef";
     Fred_ctor := fun _ => None;
     get_series := fun _ _ _ => inl (ValueError msg);
     now := 20000 |}.

(** A client constructor that rejects the key. *)
Definition W_bad_key (msg : string) : World :=
  {| FRED_API_KEY := Some "short";
     Fred_ctor := fun _ => Some (ValueError msg);
     get_series := fun _ _ _ => inr unrate_obs;
     now := 20000 |}.

(** A series whose only observation is missing. *)
Definition missing_obs : list (Timestamp * float) :=
  [ (quarter_start 2025 4, nan) ].

Definition W_monthly : World := W_serving monthly_obs.
Definition W_missing : World := W_serving missing_obs.
Definition unrate : indicator := {| series_id := "UNRATE"; ind_units := "Percent" |}.

(** A log directory about to roll over. *)
Definition files_near_limit : LoggerConfig.log_files :=
  LoggerConfig.Build_log_files 10485000 [10485700; 10485000; 3; 4; 5].

Definition three_records : list Z := [500; 500; 10485000].

Definition a_client : Fred := {| api_key := "0123456789abcdef0123456789abcdef" |}.

End Scenario2.
(* ------------------------------------------------------------------------- *)
(** * Properties *)

(** ** The order of binary64 numbers *)

Module Float64Facts.
Import Float64.

Lemma pos_compare_cont_Eq (m n : positive) :
  Pos.compare_cont Eq m n = (Z.pos m ?= Z.pos n).
Proof. reflexivity. Qed.

Ltac order_cases :=
  repeat match goal with
         | |- context [Z.compare ?a ?b] => destruct (Z.compare_spec a b)
         | |- context [Pos.compare_cont Eq ?a ?b] => rewrite (pos_compare_cont_Eq a b)
         end;
  cbn [CompOpp]; split; intros;
  try discriminate; try reflexivity;
  try match goal with
      | H : _ \/ _ |- _ => exfalso; cbn in *; lia
      | H : (_, _, _) = (_, _, _) |- _ => exfalso; inversion H; lia
      end.

Lemma ltb_key (x y : float) :
  isnan x = false -> isnan y = false ->
  (ltb x y = true <-> lex_lt (key x) (key y)).
Proof.
  intros Hx Hy. unfold ltb, SFltb, lex_lt.
  destruct x as [sx|sx| |sx mx ex]; try discriminate;
    destruct y as [sy|sy| |sy my ey]; try discriminate;
    try destruct sx; try destruct sy; cbn [SFcompare key];
    try (split; intros; [discriminate | lia]);
    try (split; intros; [lia | reflexivity]);
    order_cases; try lia.
Qed.

Lemma leb_key (x y : float) :
  isnan x = false -> isnan y = false ->
  (leb x y = true <-> lex_le (key x) (key y)).
Proof.
  intros Hx Hy. unfold leb, SFleb, lex_le, lex_lt.
  destruct x as [sx|sx| |sx mx ex]; try discriminate;
    destruct y as [sy|sy| |sy my ey]; try discriminate;
    try destruct sx; try destruct sy; cbn [SFcompare key];
    try (split; intros; [discriminate | intuition (try lia; try discriminate)]);
    try (split; intros; [intuition (try lia; auto) | reflexivity]);
    repeat match goal with
           | |- context [Z.compare ?a ?b] => destruct (Z.compare_spec a b)
           | |- context [Pos.compare_cont Eq ?a ?b] => rewrite (pos_compare_cont_Eq a b)
           end;
    cbn [CompOpp]; split; intros HH;
    try discriminate; try reflexivity;
    try (left; lia);
    try (right; f_equal; [f_equal |]; lia);
    try (exfalso; destruct HH as [HH | HH]; [lia | inversion HH; lia]).
Qed.

Lemma lex_total a b : ~ lex_le a b -> lex_lt b a.
Proof.
  destruct a as [[c1 e1] m1], b as [[c2 e2] m2]. unfold lex_le, lex_lt.
  intros H.
  destruct (Z.eq_dec c1 c2), (Z.eq_dec e1 e2), (Z.eq_dec m1 m2);
    subst; try lia; try (exfalso; apply H; right; reflexivity);
    try (destruct (Z_lt_ge_dec c2 c1); [lia |]);
    try (exfalso; apply H; left; lia).
Qed.

Lemma lex_lt_trans a b c : lex_lt a b -> lex_lt b c -> lex_lt a c.
Proof.
  destruct a as [[c1 e1] m1], b as [[c2 e2] m2], c as [[c3 e3] m3].
  unfold lex_lt. lia.
Qed.

Lemma lex_lt_le_trans a b c : lex_lt a b -> lex_le b c -> lex_lt a c.
Proof.
  intros H [H' | <-]; [eapply lex_lt_trans; eauto | exact H].
Qed.

Lemma lex_le_trans a b c : lex_le a b -> lex_le b c -> lex_le a c.
Proof.
  intros [H | <-] H'; [| exact H'].
  left. eapply lex_lt_le_trans; eauto.
Qed.

Lemma lex_le_refl a : lex_le a a.
Proof. right; reflexivity. Qed.

Lemma lex_lt_irrefl a : ~ lex_lt a a.
Proof. destruct a as [[c e] m]. unfold lex_lt. lia. Qed.

Lemma lex_lt_not_le a b : lex_lt a b -> ~ lex_le b a.
Proof.
  intros H [H' | ->].
  - apply (lex_lt_irrefl a). eapply lex_lt_trans; eauto.
  - exact (lex_lt_irrefl _ H).
Qed.

(** The consequences used below, on numbers that are not NaN. *)
Section Order.
Variables x y z : float.
Hypothesis Hx : isnan x = false.
Hypothesis Hy : isnan y = false.
Hypothesis Hz : isnan z = false.

Lemma leb_refl : leb x x = true.
Proof. apply leb_key; auto using lex_le_refl. Qed.

Lemma leb_false_ltb : leb x y = false -> ltb y x = true.
Proof.
  intros H. apply ltb_key; auto. apply lex_total.
  intros C. apply leb_key in C; auto. congruence.
Qed.

Lemma ltb_leb_trans : ltb x y = true -> leb y z = true -> ltb x z = true.
Proof.
  intros H1 H2. apply ltb_key in H1; auto. apply leb_key in H2; auto.
  apply ltb_key; auto. eapply lex_lt_le_trans; eauto.
Qed.

Lemma leb_trans : leb x y = true -> leb y z = true -> leb x z = true.
Proof.
  intros H1 H2. apply leb_key in H1; auto. apply leb_key in H2; auto.
  apply leb_key; auto. eapply lex_le_trans; eauto.
Qed.

Lemma ltb_leb : ltb x y = true -> leb x y = true.
Proof.
  intros H. apply ltb_key in H; auto. apply leb_key; auto. left; exact H.
Qed.

Lemma ltb_not_leb : ltb x y = true -> leb y x = false.
Proof.
  intros H. apply ltb_key in H; auto.
  destruct (leb y x) eqn:E; [| reflexivity].
  apply leb_key in E; auto. exfalso. eapply lex_lt_not_le; eauto.
Qed.
End Order.

Lemma eqb_leb_ltb (x y : float) : eqb x y = leb x y && negb (ltb x y).
Proof.
  unfold eqb, leb, ltb, SFeqb, SFleb, SFltb.
  destruct (SFcompare x y) as [[| |] |]; reflexivity.
Qed.

(** Two numbers each at most the other are equal as numbers. *)
Lemma leb_antisym_eqb (x y : float) :
  isnan x = false -> isnan y = false ->
  leb x y = true -> leb y x = true -> eqb x y = true.
Proof.
  intros Hx Hy H1 H2. rewrite eqb_leb_ltb, H1.
  destruct (ltb x y) eqn:E; [| reflexivity].
  rewrite (ltb_not_leb x y Hx Hy E) in H2. discriminate.
Qed.

Lemma leb_ltb_trans (x y z : float) :
  isnan x = false -> isnan y = false -> isnan z = false ->
  leb x y = true -> ltb y z = true -> ltb x z = true.
Proof.
  intros Hx Hy Hz H1 H2. apply leb_key in H1; auto. apply ltb_key in H2; auto.
  apply ltb_key; auto. destruct H1 as [H1 | ->]; [| exact H2].
  eapply lex_lt_trans; eauto.
Qed.

(** Numbers equal as numbers are the same value, unless they are zeros. *)
Lemma eqb_nonzero_eq (x y : float) :
  eqb x y = true -> iszero y = false -> x = y.
Proof.
  unfold eqb, SFeqb.
  destruct x as [sx | sx | | sx mx ex], y as [sy | sy | | sy my ey];
    cbn [SFcompare iszero]; try discriminate;
    try (destruct sx, sy; intros; try discriminate; reflexivity);
    try (destruct sx; discriminate); try (destruct sy; discriminate).
  destruct sx, sy; try discriminate;
    destruct (Z.compare_spec ex ey); try discriminate;
    rewrite pos_compare_cont_Eq;
    destruct (Z.compare_spec (Z.pos mx) (Z.pos my)) as [E | |];
    cbn [CompOpp]; try discriminate;
    intros _ _; inversion E; subst; reflexivity.
Qed.

Lemma eqb_refl (x : float) : isnan x = false -> eqb x x = true.
Proof.
  intros Hx. unfold eqb, SFeqb.
  destruct x as [s|s| |s m e]; try discriminate; try destruct s; cbn;
    try reflexivity; rewrite Z.compare_refl, Pos.compare_cont_refl; reflexivity.
Qed.

End Float64Facts.

(** ** The reductions: position and value of an extremum *)

Module NumpyFacts.
Import Float64 Float64Facts Numpy.

Section Scan.
Variable op : float -> float -> bool.
Hypothesis op_refl : forall x, isnan x = false -> op x x = true.
Hypothesis op_total :
  forall x y, isnan x = false -> isnan y = false -> op x y = false -> op y x = true.
Hypothesis op_trans :
  forall x y z, isnan x = false -> isnan y = false -> isnan z = false ->
                op x y = true -> op y z = true -> op x z = true.

Lemma arg_scan_inv (rest : list float) :
  forall (pre : list float) (best : float) (bi : nat),
    nan_free (pre ++ rest) ->
    first_extremum op pre bi best ->
    first_extremum op (pre ++ rest)
                   (arg_scan op best bi (length pre) rest)
                   (fold_left (scan_best op) rest best).
Proof.
  induction rest as [| x t IH]; intros pre best bi Hnf Hinv.
  - cbn. rewrite app_nil_r. exact Hinv.
  - destruct Hinv as (Hbest & Hall & Hfirst).
    assert (Hpre : nan_free pre) by (apply Forall_app in Hnf; tauto).
    assert (Hx : isnan x = false).
    { apply Forall_app in Hnf. destruct Hnf as [_ Hr]. inversion Hr; auto. }
    assert (Hb : isnan best = false).
    { unfold nan_free in Hpre. rewrite Forall_forall in Hpre.
      apply Hpre. eapply nth_error_In; eauto. }
    assert (Hin : forall v, In v pre -> isnan v = false).
    { unfold nan_free in Hpre. rewrite Forall_forall in Hpre. exact Hpre. }
    assert (Hlen : (bi < length pre)%nat).
    { apply nth_error_Some. congruence. }
    cbn [arg_scan fold_left]. rewrite Hb. unfold scan_best at 2. rewrite Hb.
    replace (pre ++ x :: t) with ((pre ++ [x]) ++ t) in *
      by (rewrite <- app_assoc; reflexivity).
    replace (S (length pre)) with (length (pre ++ [x]))
      by (rewrite length_app; cbn; lia).
    destruct (op best x) eqn:E; cbn [negb].
    + apply IH; [exact Hnf |].
      split; [rewrite nth_error_app1 by lia; exact Hbest |].
      split.
      * intros v Hv. apply in_app_or in Hv. destruct Hv as [Hv | [<- | []]]; auto.
      * intros j v Hj Hv. rewrite nth_error_app1 in Hv by lia. eauto.
    + apply (IH (pre ++ [x]) x (length pre)); [exact Hnf |].
      split; [rewrite nth_error_app2 by lia; rewrite Nat.sub_diag; reflexivity |].
      split.
      * intros v Hv. apply in_app_or in Hv. destruct Hv as [Hv | [<- | []]]; auto.
        apply op_trans with best; auto.
      * intros j v Hj Hv. rewrite nth_error_app1 in Hv by lia.
        destruct (op v x) eqn:E'; [| reflexivity].
        assert (Hvn : isnan v = false) by (apply Hin; eapply nth_error_In; eauto).
        assert (op best x = true).
        { apply op_trans with v; auto. apply Hall. eapply nth_error_In; eauto. }
        congruence.
Qed.

Lemma arg_scan_first_extremum (x : float) (t : list float) :
  nan_free (x :: t) ->
  first_extremum op (x :: t) (arg_scan op x 0 1 t) (fold_left (scan_best op) t x).
Proof.
  intros Hnf.
  apply (arg_scan_inv t [x] x 0); [exact Hnf |].
  assert (Hx : isnan x = false) by (inversion Hnf; auto).
  split; [reflexivity |]. split.
  - intros v [<- | []]. auto.
  - intros j v Hj. lia.
Qed.

(** The value of a reduction: with [sop] the strict comparison that goes
    with [op], the result is an element of the array and comes first in the
    order of [op]. *)
Variable sop : float -> float -> bool.
Hypothesis sop_op :
  forall x y, isnan x = false -> isnan y = false -> sop x y = true -> op x y = true.
Hypothesis sop_false :
  forall x y, isnan x = false -> isnan y = false -> sop x y = false -> op y x = true.

Lemma fold_extremum (t : list float) :
  forall x,
    nan_free (x :: t) ->
    In (fold_left (extremum sop) t x) (x :: t) /\
    (forall v, In v (x :: t) -> op (fold_left (extremum sop) t x) v = true).
Proof.
  induction t as [| y t IH]; intros x Hnf.
  - inversion Hnf; subst. cbn. split; [auto |]. intros v [<- | []]. auto.
  - assert (Hx : isnan x = false) by (inversion Hnf; auto).
    assert (Hy : isnan y = false).
    { inversion Hnf as [| ? ? _ Ht]. inversion Ht; auto. }
    assert (Ht : nan_free t).
    { inversion Hnf as [| ? ? _ Ht']. inversion Ht'; auto. }
    cbn [fold_left]. set (m := extremum sop x y).
    assert (Hm : (m = x \/ m = y) /\ op m x = true /\ op m y = true).
    { unfold m, extremum. rewrite Hx, orb_false_r.
      destruct (sop x y) eqn:E.
      - split; [auto |]. split; [apply op_refl; exact Hx | apply sop_op; auto].
      - split; [auto |]. split; [apply sop_false; auto | apply op_refl; exact Hy]. }
    destruct Hm as (Hmem & Hmx & Hmy).
    assert (Hmn : isnan m = false) by (destruct Hmem as [-> | ->]; assumption).
    assert (Hnf' : nan_free (m :: t)) by (constructor; assumption).
    destruct (IH m Hnf') as [Hin Hall].
    assert (Hrn : isnan (fold_left (extremum sop) t m) = false).
    { unfold nan_free in Hnf'. rewrite Forall_forall in Hnf'. apply Hnf'. exact Hin. }
    split.
    + destruct Hin as [Hin | Hin]; [| right; right; exact Hin].
      rewrite <- Hin. destruct Hmem as [-> | ->]; [left | right; left]; reflexivity.
    + intros v [<- | [<- | Hv]].
      * apply op_trans with m; auto. apply Hall. left; reflexivity.
      * apply op_trans with m; auto. apply Hall. left; reflexivity.
      * apply Hall. right; exact Hv.
Qed.

End Scan.

(** The reduction and the scan together, for the minimum and the maximum. *)
Lemma reported_minimum (x : float) (t : list float) :
  nan_free (x :: t) ->
  reported_extremum le_op (x :: t) (arg_scan le_op x 0 1 t) (fold_left minimum t x).
Proof.
  intros Hnf.
  assert (R : forall a, isnan a = false -> le_op a a = true) by (intros; apply leb_refl; auto).
  assert (T : forall a b, isnan a = false -> isnan b = false ->
                          le_op a b = false -> le_op b a = true).
  { intros a b Ha Hb H. apply ltb_leb; auto. apply leb_false_ltb; auto. }
  assert (Tr : forall a b c, isnan a = false -> isnan b = false -> isnan c = false ->
                             le_op a b = true -> le_op b c = true -> le_op a c = true).
  { unfold le_op. intros a b c Ha Hb Hc H1 H2. exact (leb_trans a b c Ha Hb Hc H1 H2). }
  pose proof (arg_scan_first_extremum le_op R T Tr x t Hnf) as Hfirst.
  assert (Hred : In (fold_left minimum t x) (x :: t) /\
                 (forall v, In v (x :: t) -> le_op (fold_left minimum t x) v = true)).
  { apply (fold_extremum le_op R Tr lt_op); [| | exact Hnf].
    - intros a b Ha Hb H. apply ltb_leb; auto.
    - intros a b Ha Hb H. unfold lt_op in H. unfold le_op.
      destruct (leb b a) eqn:E; [reflexivity |].
      rewrite (leb_false_ltb b a Hb Ha E) in H. discriminate. }
  destruct Hred as [Hin Hall].
  exists (fold_left (scan_best le_op) t x).
  split; [exact Hfirst |].
  destruct Hfirst as (Hnth & Hbest & _).
  assert (Hb_in : In (fold_left (scan_best le_op) t x) (x :: t))
    by (eapply nth_error_In; eauto).
  unfold nan_free in Hnf. rewrite Forall_forall in Hnf.
  split; [| split; assumption].
  apply leb_antisym_eqb;
    [apply Hnf; assumption | apply Hnf; assumption
     | apply (Hall _ Hb_in) | apply (Hbest _ Hin)].
Qed.

Lemma reported_maximum (x : float) (t : list float) :
  nan_free (x :: t) ->
  reported_extremum ge_op (x :: t) (arg_scan ge_op x 0 1 t) (fold_left maximum t x).
Proof.
  intros Hnf.
  assert (R : forall a, isnan a = false -> ge_op a a = true) by (intros; apply leb_refl; auto).
  assert (T : forall a b, isnan a = false -> isnan b = false ->
                          ge_op a b = false -> ge_op b a = true).
  { unfold ge_op. intros a b Ha Hb H. apply ltb_leb; auto. apply leb_false_ltb; auto. }
  assert (Tr : forall a b c, isnan a = false -> isnan b = false -> isnan c = false ->
                             ge_op a b = true -> ge_op b c = true -> ge_op a c = true).
  { unfold ge_op. intros a b c Ha Hb Hc H1 H2. exact (leb_trans c b a Hc Hb Ha H2 H1). }
  pose proof (arg_scan_first_extremum ge_op R T Tr x t Hnf) as Hfirst.
  assert (Hred : In (fold_left maximum t x) (x :: t) /\
                 (forall v, In v (x :: t) -> ge_op (fold_left maximum t x) v = true)).
  { apply (fold_extremum ge_op R Tr gt_op); [| | exact Hnf].
    - unfold gt_op, ge_op. intros a b Ha Hb H. apply ltb_leb; auto.
    - intros a b Ha Hb H. unfold gt_op in H. unfold ge_op.
      destruct (leb a b) eqn:E; [reflexivity |].
      rewrite (leb_false_ltb a b Ha Hb E) in H. discriminate. }
  destruct Hred as [Hin Hall].
  exists (fold_left (scan_best ge_op) t x).
  split; [exact Hfirst |].
  destruct Hfirst as (Hnth & Hbest & _).
  assert (Hb_in : In (fold_left (scan_best ge_op) t x) (x :: t))
    by (eapply nth_error_In; eauto).
  unfold nan_free in Hnf. rewrite Forall_forall in Hnf.
  split; [| split; assumption].
  apply leb_antisym_eqb;
    [apply Hnf; assumption | apply Hnf; assumption
     | apply (Hbest _ Hin) | apply (Hall _ Hb_in)].
Qed.

(** The splitting of [pairwise_sum] never runs out of fuel: any two
    amounts that cover the length give the same sum. *)
Lemma pairwise_sum_fuel_eq (fuel : nat) (a : list float) :
  pairwise_sum_fuel fuel a =
  let n := length a in
  if (n <? 8)%nat then sum_loop zero a
  else if (n <=? PW_BLOCKSIZE)%nat then
    let '(r, rest) := blocks8 n (firstn 8 a) (skipn 8 a) in
    sum_loop (combine8 r) rest
  else
    match fuel with
    | O => nan
    | S fuel' =>
        let n2 := (n / 2)%nat in
        let n2 := (n2 - n2 mod 8)%nat in
        add (pairwise_sum_fuel fuel' (firstn n2 a))
            (pairwise_sum_fuel fuel' (skipn n2 a))
    end.
Proof. destruct fuel; reflexivity. Qed.

Lemma pairwise_sum_fuel_irrelevant (f1 : nat) :
  forall (f2 : nat) (a : list float),
    (length a <= PW_BLOCKSIZE + f1)%nat ->
    (length a <= PW_BLOCKSIZE + f2)%nat ->
    pairwise_sum_fuel f1 a = pairwise_sum_fuel f2 a.
Proof.
  unfold PW_BLOCKSIZE.
  induction f1 as [| f1 IH]; intros f2 a H1 H2;
    rewrite (pairwise_sum_fuel_eq _ a), (pairwise_sum_fuel_eq f2 a); cbn zeta;
    destruct (length a <? 8)%nat eqn:E8; try reflexivity;
    unfold PW_BLOCKSIZE;
    destruct (length a <=? 128)%nat eqn:E128; try reflexivity;
    apply Nat.leb_gt in E128; [lia |].
  destruct f2 as [| f2]; [lia |].
  set (n := length a) in *.
  assert (Hq : (n / 2 <= n - 65)%nat).
  { pose proof (Nat.div_mod_eq n 2) as Hdm.
    pose proof (Nat.mod_upper_bound n 2 ltac:(lia)). lia. }
  assert (Hq' : (n <= 2 * (n / 2) + 1)%nat).
  { pose proof (Nat.div_mod_eq n 2) as Hdm.
    pose proof (Nat.mod_upper_bound n 2 ltac:(lia)). lia. }
  assert (Hm : ((n / 2) mod 8 < 8)%nat) by (apply Nat.mod_upper_bound; lia).
  assert (Hm' : ((n / 2) mod 8 <= n / 2)%nat) by (apply Nat.Div0.mod_le).
  f_equal; apply IH; rewrite ?length_firstn, ?length_skipn; fold n; lia.
Qed.

(** The unrolled loop consumes every full block of eight. *)
Lemma blocks8_rest (fuel : nat) :
  forall r a, (length a < 8 * S fuel)%nat ->
              (length (snd (blocks8 fuel r a)) < 8)%nat.
Proof.
  induction fuel as [| fuel IH]; intros r a H; cbn [blocks8].
  - cbn [snd]. lia.
  - destruct (8 <=? length a)%nat eqn:E.
    + apply IH. rewrite length_skipn. apply Nat.leb_le in E. lia.
    + cbn [snd]. apply Nat.leb_gt in E. exact E.
Qed.

Lemma pairwise_sum_fuel_enough (fuel : nat) (a : list float) :
  (length a <= PW_BLOCKSIZE + fuel)%nat ->
  pairwise_sum_fuel fuel a = pairwise_sum a.
Proof.
  intros H. unfold pairwise_sum.
  apply pairwise_sum_fuel_irrelevant; [exact H | lia].
Qed.

Lemma le_op_refl x : isnan x = false -> le_op x x = true.
Proof. apply leb_refl. Qed.

Lemma le_op_total x y :
  isnan x = false -> isnan y = false -> le_op x y = false -> le_op y x = true.
Proof.
  intros Hx Hy H. apply ltb_leb; auto. apply leb_false_ltb; auto.
Qed.

Lemma le_op_trans x y z :
  isnan x = false -> isnan y = false -> isnan z = false ->
  le_op x y = true -> le_op y z = true -> le_op x z = true.
Proof. unfold le_op. intros. eapply leb_trans with (y := y); eauto. Qed.

Lemma ge_op_refl x : isnan x = false -> ge_op x x = true.
Proof. apply leb_refl. Qed.

Lemma ge_op_total x y :
  isnan x = false -> isnan y = false -> ge_op x y = false -> ge_op y x = true.
Proof.
  unfold ge_op. intros Hx Hy H. apply ltb_leb; auto. apply leb_false_ltb; auto.
Qed.

Lemma ge_op_trans x y z :
  isnan x = false -> isnan y = false -> isnan z = false ->
  ge_op x y = true -> ge_op y z = true -> ge_op x z = true.
Proof. unfold ge_op. intros. eapply leb_trans with (y := y); eauto. Qed.

End NumpyFacts.

(** ** Series operations *)

Module PandasFacts.
Import Float64 Float64Facts Numpy NumpyFacts Pandas.

Lemma bind_ret_l {A B} (a : A) (f : A -> M B) : bind (ret a) f = f a.
Proof. unfold bind, ret. destruct (f a); reflexivity. Qed.

Lemma bind_emit {B} (e : event) (f : unit -> M B) :
  bind (emit e) f = (fst (f tt), e :: snd (f tt)).
Proof. unfold bind, emit. destruct (f tt); reflexivity. Qed.

Lemma nth_error_last {A} (s : list A) (d : A) :
  s <> [] -> nth_error s (length s - 1) = Some (last s d).
Proof.
  induction s as [| x t IH]; [congruence |]. intros _.
  destruct t as [| y t']; [reflexivity |].
  cbn [length]. replace (S (S (length t')) - 1)%nat with (S (length (y :: t') - 1))
    by (cbn [length]; lia).
  cbn [nth_error]. rewrite IH by congruence. reflexivity.
Qed.

Lemma iloc_first {A} (s : list A) (d : A) :
  s <> [] -> iloc s 0 = ret (hd d s).
Proof.
  destruct s as [| x t]; [congruence |]. intros _.
  unfold iloc. cbn [length hd]. rewrite Nat2Z.inj_succ.
  replace (0 <? 0) with false by reflexivity.
  replace ((0 <=? 0) && (0 <? Z.succ (Z.of_nat (length t)))) with true
    by (symmetry; apply andb_true_iff; split; [reflexivity | apply Z.ltb_lt; lia]).
  reflexivity.
Qed.

Lemma iloc_last {A} (s : list A) (d : A) :
  s <> [] -> iloc s (-1) = ret (last s d).
Proof.
  intros Hs. unfold iloc.
  assert (Hn : (0 < length s)%nat) by (destruct s; [congruence | cbn; lia]).
  replace (-1 <? 0) with true by reflexivity.
  replace ((0 <=? Z.of_nat (length s) + -1) &&
           (Z.of_nat (length s) + -1 <? Z.of_nat (length s))) with true
    by (symmetry; apply andb_true_iff; split;
        [apply Z.leb_le | apply Z.ltb_lt]; lia).
  replace (Z.to_nat (Z.of_nat (length s) + -1)) with (length s - 1)%nat by lia.
  rewrite (nth_error_last s d Hs). reflexivity.
Qed.

Lemma fillna_nan_free (fill : float) (s : Series) :
  isnan fill = false -> nan_free (fillna fill s).
Proof.
  intros Hf. unfold nan_free, fillna. apply Forall_forall. intros v Hv.
  apply in_map_iff in Hv. destruct Hv as (w & <- & _).
  destruct (isnan w) eqn:E; auto.
Qed.

Lemma fillna_id (fill : float) (s : Series) :
  nan_free s -> fillna fill s = s.
Proof.
  unfold nan_free, fillna. induction 1 as [| v t Hv _ IH]; [reflexivity |].
  cbn [map]. rewrite Hv, IH. reflexivity.
Qed.

Lemma count_nan_free (s : Series) : nan_free s -> count s = length s.
Proof.
  unfold nan_free, count. induction 1 as [| v t Hv _ IH]; [reflexivity |].
  cbn [filter]. rewrite Hv. cbn [negb length]. rewrite IH. reflexivity.
Qed.

Lemma count_le_length (s : Series) : (count s <= length s)%nat.
Proof. unfold count. apply filter_length_le. Qed.

(** Minimum and its position on a series with at least one value present. *)
Lemma min_idxmin (s : Series) :
  (1 <= count s)%nat ->
  exists i b,
    idxmin s = ret i /\ min s = ret b /\
    reported_extremum le_op (fillna pos_inf s) i b.
Proof.
  intros Hc.
  assert (Hlt : (count s <? 1)%nat = false) by (apply Nat.ltb_ge; exact Hc).
  pose proof (fillna_nan_free pos_inf s eq_refl) as Hnf.
  destruct s as [| x t]; [cbn in Hc; lia |].
  unfold idxmin, min. rewrite Hlt.
  remember (fillna pos_inf (x :: t)) as f eqn:Ef.
  cbn [fillna map] in Ef. subst f.
  cbn [argmin amin]. rewrite !bind_ret_l.
  eexists _, _. split; [reflexivity |]. split; [reflexivity |].
  apply reported_minimum. exact Hnf.
Qed.

Lemma max_idxmax (s : Series) :
  (1 <= count s)%nat ->
  exists i b,
    idxmax s = ret i /\ max s = ret b /\
    reported_extremum ge_op (fillna neg_inf s) i b.
Proof.
  intros Hc.
  assert (Hlt : (count s <? 1)%nat = false) by (apply Nat.ltb_ge; exact Hc).
  pose proof (fillna_nan_free neg_inf s eq_refl) as Hnf.
  destruct s as [| x t]; [cbn in Hc; lia |].
  unfold idxmax, max. rewrite Hlt.
  remember (fillna neg_inf (x :: t)) as f eqn:Ef.
  cbn [fillna map] in Ef. subst f.
  cbn [argmax amax]. rewrite !bind_ret_l.
  eexists _, _. split; [reflexivity |]. split; [reflexivity |].
  apply reported_maximum. exact Hnf.
Qed.

(** [min] and [max] always return. *)
Lemma min_returns (s : Series) : exists b, min s = ret b.
Proof.
  destruct s as [| x t]; [eexists; reflexivity |].
  unfold min. cbn [fillna map amin]. rewrite bind_ret_l. eexists; reflexivity.
Qed.

Lemma max_returns (s : Series) : exists b, max s = ret b.
Proof.
  destruct s as [| x t]; [eexists; reflexivity |].
  unfold max. cbn [fillna map amax]. rewrite bind_ret_l. eexists; reflexivity.
Qed.

(** The mean of a series without missing values is the sum of all its
    values over their number. *)
Lemma mean_nan_free (s : Series) :
  nan_free s -> s <> [] ->
  mean s = div (Numpy.sum s) (of_nat (length s)).
Proof.
  intros Hnf Hs. unfold mean. rewrite (count_nan_free s Hnf), (fillna_id zero s Hnf).
  destruct s; [congruence | reflexivity].
Qed.

End PandasFacts.

(** ** The dashboard script *)

Module AppSpec.
Import Float64 Float64Facts Numpy NumpyFacts Pandas PandasFacts App.

Lemma values_length d : length (values d) = length (data d).
Proof. apply length_map. Qed.

Lemma values_nonempty d : (1 <= length (data d))%nat -> values d <> [].
Proof.
  unfold values. destruct (data d); cbn; [lia | congruence].
Qed.

(** [calculate_change] never logs and never fails: it returns the formula
    on two rows or more and [None] below. *)
Lemma calculate_change_eq (d : data_dict) :
  calculate_change d =
  ret (if (2 <=? length (data d))%nat
       then Some (pct (hd nan (values d)) (last (values d) nan))
       else None).
Proof.
  unfold calculate_change, calculate_change_with.
  destruct (2 <=? length (data d))%nat eqn:E; [| reflexivity].
  apply Nat.leb_le in E.
  assert (Hne : values d <> []) by (apply values_nonempty; lia).
  fold (values d).
  rewrite (iloc_first (values d) nan Hne), (iloc_last (values d) nan Hne).
  rewrite !bind_ret_l. unfold np_truediv. rewrite bind_ret_l.
  reflexivity.
Qed.

(** With a division that raises on a zero divisor the handler of
    [calculate_change] takes over. *)
Lemma calculate_change_py_zero (d : data_dict) :
  (2 <= length (data d))%nat ->
  iszero (hd nan (values d)) = true ->
  calculate_change_with py_truediv d =
  (Ok None, [Log ERROR "Error calculating change: float division by zero"]).
Proof.
  intros Hlen Hz. unfold calculate_change_with.
  replace (2 <=? length (data d))%nat with true by (symmetry; apply Nat.leb_le; lia).
  assert (Hne : values d <> []) by (apply values_nonempty; lia).
  fold (values d).
  rewrite (iloc_first (values d) nan Hne), (iloc_last (values d) nan Hne).
  rewrite !bind_ret_l. unfold py_truediv. rewrite Hz. reflexivity.
Qed.

(** C1: on two rows or more the percent change is
    (last value - first value) / first value * 100, first and last in the
    stored order. *)
Theorem calculate_change_formula (d : data_dict) :
  (2 <= length (data d))%nat ->
  calculate_change d =
  ret (Some (mul (div (sub (last (values d) nan) (hd nan (values d)))
                      (hd nan (values d)))
                 (of_Z 100))).
Proof.
  intros Hlen. rewrite calculate_change_eq.
  replace (2 <=? length (data d))%nat with true by (symmetry; apply Nat.leb_le; lia).
  reflexivity.
Qed.

Example calculate_change_unrate :
  exists p, calculate_change Scenario.d_unrate = ret (Some p) /\
            dyadic_cmp_decimal p 2857 3 = Some Gt /\
            dyadic_cmp_decimal p 2858 3 = Some Lt.
Proof. eexists. vm_compute. repeat split. Qed.

Lemma calculate_change_formula_witness :
  (2 <= length (data Scenario.d_unrate))%nat /\
  calculate_change Scenario.d_unrate =
  ret (Some (mul (div (sub (decimal 36 1) (decimal 35 1)) (decimal 35 1)) (of_Z 100))).
Proof.
  split; [vm_compute; lia |].
  apply (calculate_change_formula Scenario.d_unrate). vm_compute; lia.
Defined.

Lemma of_Z_100 : of_Z 100 = S754_finite false 7036874417766400 (-46).
Proof. vm_compute. reflexivity. Qed.

(** What the unguarded division yields on a zero divisor. *)
Lemma pct_zero_oldest (oldest newest : float) :
  iszero oldest = true ->
  pct oldest newest =
  if isnan newest || iszero newest then nan
  else S754_infinity (xorb (signbit newest) (signbit oldest)).
Proof.
  intros Hz. unfold pct. rewrite of_Z_100.
  destruct oldest as [so| | |]; try discriminate.
  destruct newest as [sn|sn| |sn mn en]; cbn;
    try destruct sn; try destruct so; reflexivity.
Qed.

(** C2, as the code has it: with the oldest value exactly zero the
    division is performed unguarded and nothing reaches the caller as a
    fault.  On float64 scalars the quotient is NaN when the newest value is
    zero or NaN and an infinity otherwise, and that is the value returned;
    were the division to raise (built-in floats), the function's own
    handler logs the error and returns [None]. *)
Theorem calculate_change_zero_oldest (d : data_dict) :
  (2 <= length (data d))%nat ->
  iszero (hd nan (values d)) = true ->
  let oldest := hd nan (values d) in
  let newest := last (values d) nan in
  calculate_change d =
    ret (Some (if isnan newest || iszero newest then nan
               else S754_infinity (xorb (signbit newest) (signbit oldest)))) /\
  (forall e, result_of (calculate_change d) <> Raised e) /\
  (forall e, result_of (calculate_change_with py_truediv d) <> Raised e) /\
  result_of (calculate_change_with py_truediv d) = Ok None.
Proof.
  intros Hlen Hz oldest newest.
  rewrite calculate_change_eq.
  replace (2 <=? length (data d))%nat with true by (symmetry; apply Nat.leb_le; lia).
  fold oldest newest.
  rewrite (pct_zero_oldest oldest newest Hz).
  rewrite (calculate_change_py_zero d Hlen Hz).
  repeat split; intros e; discriminate.
Qed.

Lemma calculate_change_zero_oldest_witness :
  calculate_change Scenario.d_zero_oldest = ret (Some pos_inf) /\
  (forall e, result_of (calculate_change Scenario.d_zero_oldest) <> Raised e) /\
  (forall e, result_of (calculate_change_with py_truediv Scenario.d_zero_oldest)
             <> Raised e) /\
  result_of (calculate_change_with py_truediv Scenario.d_zero_oldest) = Ok None.
Proof.
  apply (calculate_change_zero_oldest Scenario.d_zero_oldest).
  - vm_compute; lia.
  - reflexivity.
Defined.

(** C2 as stated fails: two rows, the oldest exactly zero, and the
    computation returns +inf to its caller instead of raising. *)
Lemma calculate_change_zero_oldest_no_fault :
  (2 <= length (data Scenario.d_zero_oldest))%nat /\
  iszero (hd nan (values Scenario.d_zero_oldest)) = true /\
  calculate_change Scenario.d_zero_oldest = (Ok (Some pos_inf), []) /\
  ~ (exists e es, calculate_change Scenario.d_zero_oldest = (Raised e, es)).
Proof.
  split; [vm_compute; lia |]. split; [reflexivity |].
  split; [vm_compute; reflexivity |].
  intros (e & es & H). vm_compute in H. discriminate.
Qed.

(** The statistics block returns whenever one value at least is present,
    and each field is the result of the corresponding series operation. *)
Lemma key_statistics_returns (d : data_dict) (unit_label : string) :
  (1 <= count (values d))%nat ->
  exists st es i j,
    key_statistics d unit_label = (Ok st, es) /\
    latest_value st = last (values d) nan /\
    latest_quarter st = last (quarters_col d) "" /\
    calculate_change d = ret (pct_change st) /\
    min (values d) = ret (min_val st) /\ idxmin (values d) = ret i /\
    max (values d) = ret (max_val st) /\ idxmax (values d) = ret j /\
    reported_extremum le_op (fillna pos_inf (values d)) i (min_val st) /\
    nth_error (quarters_col d) i = Some (min_quarter st) /\
    reported_extremum ge_op (fillna neg_inf (values d)) j (max_val st) /\
    nth_error (quarters_col d) j = Some (max_quarter st) /\
    mean_value st = mean (values d).
Proof.
  intros Hc.
  assert (Hlen : (1 <= length (data d))%nat).
  { rewrite <- values_length. pose proof (count_le_length (values d)). lia. }
  assert (Hv : values d <> []) by (apply values_nonempty; exact Hlen).
  assert (Hq : quarters_col d <> []).
  { unfold quarters_col. destruct (data d); cbn in *; [lia | congruence]. }
  destruct (min_idxmin (values d) Hc) as (i & b & Hi & Hb & Hmin).
  destruct (max_idxmax (values d) Hc) as (j & c & Hj & Hcmax & Hmax).
  assert (Hqi : exists q, nth_error (quarters_col d) i = Some q).
  { destruct (nth_error (quarters_col d) i) eqn:E; [eauto |].
    apply nth_error_None in E. destruct Hmin as (b0 & (Hn & _) & _).
    assert (i < length (fillna pos_inf (values d)))%nat
      by (apply nth_error_Some; congruence).
    unfold fillna, quarters_col, values in *. rewrite !length_map in *. lia. }
  assert (Hqj : exists q, nth_error (quarters_col d) j = Some q).
  { destruct (nth_error (quarters_col d) j) eqn:E; [eauto |].
    apply nth_error_None in E. destruct Hmax as (c0 & (Hn & _) & _).
    assert (j < length (fillna neg_inf (values d)))%nat
      by (apply nth_error_Some; congruence).
    unfold fillna, quarters_col, values in *. rewrite !length_map in *. lia. }
  destruct Hqi as (qi & Hqi). destruct Hqj as (qj & Hqj).
  unfold key_statistics. fold (values d). fold (quarters_col d).
  rewrite (iloc_last (values d) nan Hv), (iloc_last (quarters_col d) "" Hq).
  rewrite calculate_change_eq, Hi, Hb, Hj, Hcmax.
  assert (Li : loc (quarters_col d) i = ret qi) by (unfold loc; rewrite Hqi; reflexivity).
  assert (Lj : loc (quarters_col d) j = ret qj) by (unfold loc; rewrite Hqj; reflexivity).
  repeat (progress rewrite ?bind_ret_l, ?bind_emit, ?Li, ?Lj).
  unfold ret. cbn [fst snd].
  eexists _, _, i, j. split; [reflexivity |]. cbn [latest_value latest_quarter
    pct_change min_val min_quarter max_val max_quarter mean_value].
  repeat match goal with |- _ /\ _ => split end;
    try reflexivity; assumption.
Qed.

Lemma ret_inj {A} (a b : A) : ret a = ret b -> a = b.
Proof. unfold ret. intros H. inversion H. reflexivity. Qed.



(** C6, as the code has it.  On a table with at least one value present:
    the latest value and quarter are those of the last row; the minimum
    (maximum) is reported with the quarter of the first row that attains
    it, a missing value counting as +inf (-inf): no row is smaller than
    that row and every earlier row is strictly greater; the value shown is
    the value of some row and equals that row's value as a number (it is
    that very value unless it is a zero, +0.0 and -0.0 being equal as
    numbers); the mean is the sum of the present values over their number,
    which is the mean over all rows when no value is missing. *)
Theorem summary_statistics (d : data_dict) (unit_label : string) :
  (1 <= count (values d))%nat ->
  exists st es i j vi vj,
    key_statistics d unit_label = (Ok st, es) /\
    latest_value st = last (values d) nan /\
    latest_quarter st = last (quarters_col d) "" /\
    (nth_error (fillna pos_inf (values d)) i = Some vi /\
     nth_error (quarters_col d) i = Some (min_quarter st) /\
     (forall v, In v (fillna pos_inf (values d)) -> leb vi v = true) /\
     (forall k v, (k < i)%nat -> nth_error (fillna pos_inf (values d)) k = Some v ->
                  ltb vi v = true) /\
     In (min_val st) (fillna pos_inf (values d)) /\
     eqb (min_val st) vi = true /\
     (iszero vi = false -> min_val st = vi)) /\
    (nth_error (fillna neg_inf (values d)) j = Some vj /\
     nth_error (quarters_col d) j = Some (max_quarter st) /\
     (forall v, In v (fillna neg_inf (values d)) -> leb v vj = true) /\
     (forall k v, (k < j)%nat -> nth_error (fillna neg_inf (values d)) k = Some v ->
                  ltb v vj = true) /\
     In (max_val st) (fillna neg_inf (values d)) /\
     eqb (max_val st) vj = true /\
     (iszero vj = false -> max_val st = vj)) /\
    mean_value st =
      div (Numpy.sum (fillna zero (values d))) (of_nat (count (values d))) /\
    (nan_free (values d) ->
     fillna pos_inf (values d) = values d /\
     fillna neg_inf (values d) = values d /\
     mean_value st = mean_over_all_rows (values d)).
Proof.
  intros Hc.
  destruct (key_statistics_returns d unit_label Hc)
    as (st & es & i & j & Hk & Hl & Hlq & _ & _ & _ & _ & _ & Hmin & Hqi & Hmax & Hqj & Hmean).
  pose proof (fillna_nan_free pos_inf (values d) eq_refl) as Hnf1.
  pose proof (fillna_nan_free neg_inf (values d) eq_refl) as Hnf2.
  unfold nan_free in Hnf1, Hnf2. rewrite Forall_forall in Hnf1, Hnf2.
  destruct Hmin as (vi & (Hmi & Hmall & Hmfirst) & Hmeq & Hmin_in & _).
  destruct Hmax as (vj & (Hxi & Hxall & Hxfirst) & Hxeq & Hmax_in & _).
  exists st, es, i, j, vi, vj.
  assert (Hmn : isnan vi = false) by (apply Hnf1; eapply nth_error_In; eauto).
  assert (Hxn : isnan vj = false) by (apply Hnf2; eapply nth_error_In; eauto).
  split; [exact Hk |]. split; [exact Hl |]. split; [exact Hlq |].
  split; [| split; [| split]].
  - split; [exact Hmi |]. split; [exact Hqi |]. split; [exact Hmall |].
    split; [| split; [exact Hmin_in | split; [exact Hmeq |]]].
    + intros k v Hki Hv. apply leb_false_ltb.
      * apply Hnf1; eapply nth_error_In; eauto.
      * exact Hmn.
      * exact (Hmfirst k v Hki Hv).
    + intros Hz. apply eqb_nonzero_eq; assumption.
  - split; [exact Hxi |]. split; [exact Hqj |]. split; [exact Hxall |].
    split; [| split; [exact Hmax_in | split; [exact Hxeq |]]].
    + intros k v Hkj Hv. apply leb_false_ltb.
      * exact Hxn.
      * apply Hnf2; eapply nth_error_In; eauto.
      * exact (Hxfirst k v Hkj Hv).
    + intros Hz. apply eqb_nonzero_eq; assumption.
  - rewrite Hmean. unfold mean.
    replace (0 <? count (values d))%nat with true
      by (symmetry; apply Nat.ltb_lt; lia).
    reflexivity.
  - intros Hnf. rewrite !fillna_id by exact Hnf.
    repeat split. rewrite Hmean. unfold mean_over_all_rows.
    apply mean_nan_free; [exact Hnf |].
    intros E. rewrite E in Hc. cbn in Hc. lia.
Qed.

Lemma summary_statistics_witness :
  exists st es i j vi vj,
    key_statistics Scenario.d_ties "Percent" = (Ok st, es) /\
    latest_value st = last (values Scenario.d_ties) nan /\
    latest_quarter st = last (quarters_col Scenario.d_ties) "" /\
    (nth_error (fillna pos_inf (values Scenario.d_ties)) i = Some vi /\
     nth_error (quarters_col Scenario.d_ties) i = Some (min_quarter st) /\
     (forall v, In v (fillna pos_inf (values Scenario.d_ties)) -> leb vi v = true) /\
     (forall k v, (k < i)%nat ->
                  nth_error (fillna pos_inf (values Scenario.d_ties)) k = Some v ->
                  ltb vi v = true) /\
     In (min_val st) (fillna pos_inf (values Scenario.d_ties)) /\
     eqb (min_val st) vi = true /\
     (iszero vi = false -> min_val st = vi)) /\
    (nth_error (fillna neg_inf (values Scenario.d_ties)) j = Some vj /\
     nth_error (quarters_col Scenario.d_ties) j = Some (max_quarter st) /\
     (forall v, In v (fillna neg_inf (values Scenario.d_ties)) -> leb v vj = true) /\
     (forall k v, (k < j)%nat ->
                  nth_error (fillna neg_inf (values Scenario.d_ties)) k = Some v ->
                  ltb v vj = true) /\
     In (max_val st) (fillna neg_inf (values Scenario.d_ties)) /\
     eqb (max_val st) vj = true /\
     (iszero vj = false -> max_val st = vj)) /\
    mean_value st =
      div (Numpy.sum (fillna zero (values Scenario.d_ties)))
          (of_nat (count (values Scenario.d_ties))) /\
    (nan_free (values Scenario.d_ties) ->
     fillna pos_inf (values Scenario.d_ties) = values Scenario.d_ties /\
     fillna neg_inf (values Scenario.d_ties) = values Scenario.d_ties /\
     mean_value st = mean_over_all_rows (values Scenario.d_ties)).
Proof.
  apply (summary_statistics Scenario.d_ties "Percent").
  vm_compute; lia.
Defined.

(** Of a +0.0 followed by a -0.0 the first row is reported as the place of
    both the minimum and the maximum, and the value shown for both is the
    later zero. *)
Example zeros_report_first_row :
  exists st es,
    key_statistics Scenario.d_zeros "Percent" = (Ok st, es) /\
    min_val st = S754_zero true /\ min_quarter st = "2020Q1" /\
    max_val st = S754_zero true /\ max_quarter st = "2020Q1".
Proof. eexists _, _. split; [vm_compute; reflexivity |]. repeat split. Qed.

(** On ties the first row wins: of the two minima (rows 1 and 3) and the
    two maxima (rows 0 and 2) the earlier quarter is shown. *)
Example ties_report_first_row :
  exists st es,
    key_statistics Scenario.d_ties "Percent" = (Ok st, es) /\
    min_val st = of_Z 1 /\ min_quarter st = "2020Q2" /\
    max_val st = of_Z 2 /\ max_quarter st = "2020Q1" /\
    latest_value st = of_Z 1 /\ latest_quarter st = "2020Q4" /\
    mean_value st = decimal 15 1.
Proof. eexists _, _. split; [vm_compute; reflexivity |]. repeat split. Qed.

(** C6 as stated fails on a table with a missing value: the mean shown is
    that of the present values, not the mean over all rows. *)
Lemma mean_skips_missing_rows :
  exists st es,
    key_statistics Scenario.d_missing "Percent" = (Ok st, es) /\
    values Scenario.d_missing = [of_Z 1; nan] /\
    mean_value st = of_Z 1 /\
    mean_over_all_rows (values Scenario.d_missing) = nan /\
    mean_value st <> mean_over_all_rows (values Scenario.d_missing).
Proof.
  eexists _, _. split; [vm_compute; reflexivity |].
  split; [reflexivity |]. split; [vm_compute; reflexivity |].
  split; [vm_compute; reflexivity |].
  vm_compute. discriminate.
Qed.

(** When every value is missing there is no row to report: the lookup of
    the minimum's position fails and the run ends in the handler of
    [main]. *)
Example all_missing_fails :
  exists e es,
    key_statistics
      (Scenario.table "Unemployment Rate" "Percent"
                      [(Scenario.quarter_start 2025 4, nan)]) "Percent"
    = (Raised e, es).
Proof. eexists _, _. vm_compute. reflexivity. Qed.

(** C8: the eight points 3.5, 3.6, 3.7, 3.9, 4.0, 3.8, 3.7, 3.6. *)
Theorem unrate_scenario (d : data_dict) (unit_label : string) :
  values d = Scenario.unrate_values ->
  exists st es p,
    key_statistics d unit_label = (Ok st, es) /\
    latest_value st = decimal 36 1 /\
    min_val st = decimal 35 1 /\
    max_val st = decimal 40 1 /\
    mean_value st = decimal 3725 3 /\
    pct_change st = Some p /\
    p = mul (div (sub (decimal 36 1) (decimal 35 1)) (decimal 35 1)) (of_Z 100) /\
    dyadic_cmp_decimal p 28571 4 = Some Gt /\
    dyadic_cmp_decimal p 28572 4 = Some Lt.
Proof.
  intros Hv.
  assert (Hc : (1 <= count (values d))%nat) by (rewrite Hv; vm_compute; lia).
  destruct (key_statistics_returns d unit_label Hc)
    as (st & es & i & j & Hk & Hl & _ & Hp & Hm & _ & Hx & _ & _ & _ & _ & _ & Hmean).
  assert (Hlen : length (data d) = 8%nat) by (rewrite <- values_length, Hv; reflexivity).
  rewrite calculate_change_eq, Hlen in Hp. apply ret_inj in Hp.
  rewrite Hv in *.
  exists st, es, (mul (div (sub (decimal 36 1) (decimal 35 1)) (decimal 35 1)) (of_Z 100)).
  split; [exact Hk |].
  split; [rewrite Hl; vm_compute; reflexivity |].
  split; [apply ret_inj; rewrite <- Hm; vm_compute; reflexivity |].
  split; [apply ret_inj; rewrite <- Hx; vm_compute; reflexivity |].
  split; [rewrite Hmean; vm_compute; reflexivity |].
  split; [rewrite <- Hp; vm_compute; reflexivity |].
  split; [reflexivity |].
  split; vm_compute; reflexivity.
Qed.

Lemma unrate_scenario_witness :
  exists st es p,
    key_statistics Scenario.d_unrate "Percent" = (Ok st, es) /\
    latest_value st = decimal 36 1 /\
    min_val st = decimal 35 1 /\
    max_val st = decimal 40 1 /\
    mean_value st = decimal 3725 3 /\
    pct_change st = Some p /\
    p = mul (div (sub (decimal 36 1) (decimal 35 1)) (decimal 35 1)) (of_Z 100) /\
    dyadic_cmp_decimal p 28571 4 = Some Gt /\
    dyadic_cmp_decimal p 28572 4 = Some Lt.
Proof.
  apply (unrate_scenario Scenario.d_unrate "Percent").
  reflexivity.
Defined.

(** The mean depends on the order of the additions: summing the same
    eight values strictly left to right ends one unit in the last place
    above the double nearest to 3.725. *)
Example unrate_mean_left_to_right :
  div (sum_loop zero Scenario.unrate_values) (of_Z 8)
  = S754_finite false 8387954305977550 (-51) /\
  decimal 3725 3 = S754_finite false 8387954305977549 (-51).
Proof. split; vm_compute; reflexivity. Qed.

(** C10: the fetch returns, and what it returns is either [None] or a
    record whose table has at least one row. *)
Theorem get_economic_data_nonempty (W : World) (fred : Fred)
        (sid ttl unit_label : string) (nq : Z) :
  exists r es,
    get_economic_data W fred sid ttl unit_label nq = (Ok r, es) /\
    match r with
    | None => True
    | Some d => (1 <= length (data d))%nat /\ Pandas.empty (data d) = false
    end.
Proof.
  unfold get_economic_data, fred_get_series.
  destruct (get_series W sid (now W - nq * 91) (now W)) as [e | [| o obs]];
    eexists _, _; (split; [reflexivity |]); cbn; auto.
  split; [lia | reflexivity].
Qed.

(** C5: without a credential (unset or empty) the run shows the
    configuration error and halts; no client is built and no series is
    requested. *)
Theorem missing_credential_halts (W : World) (ui : Widgets) :
  falsy (FRED_API_KEY W) = true ->
  main W ui =
    (Stopped,
     [ StSetPageConfig;
       StTitle "📊 U.S. Economic Data Dashboard";
       StMarkdown "This dashboard shows key economic indicators from the Federal Reserve Economic Data (FRED).";
       Log INFO "Initializing FRED API client";
       Log ERROR "FRED API key not found in environment variables";
       StError "FRED API key not found. Please check your .env file." ]) /\
  existsb is_provider_call (events_of (main W ui)) = false /\
  existsb is_chart (events_of (main W ui)) = false.
Proof.
  intros Hk.
  assert (E : main W ui =
    (Stopped,
     [ StSetPageConfig;
       StTitle "📊 U.S. Economic Data Dashboard";
       StMarkdown "This dashboard shows key economic indicators from the Federal Reserve Economic Data (FRED).";
       Log INFO "Initializing FRED API client";
       Log ERROR "FRED API key not found in environment variables";
       StError "FRED API key not found. Please check your .env file." ])).
  { unfold main, initialize_fred. rewrite Hk. reflexivity. }
  rewrite E. repeat split.
Qed.

Lemma missing_credential_halts_witness :
  main Scenario.W_no_key Scenario.ui_unrate =
    (Stopped,
     [ StSetPageConfig;
       StTitle "📊 U.S. Economic Data Dashboard";
       StMarkdown "This dashboard shows key economic indicators from the Federal Reserve Economic Data (FRED).";
       Log INFO "Initializing FRED API client";
       Log ERROR "FRED API key not found in environment variables";
       StError "FRED API key not found. Please check your .env file." ]) /\
  existsb is_provider_call (events_of (main Scenario.W_no_key Scenario.ui_unrate)) = false /\
  existsb is_chart (events_of (main Scenario.W_no_key Scenario.ui_unrate)) = false.
Proof.
  apply (missing_credential_halts Scenario.W_no_key Scenario.ui_unrate).
  reflexivity.
Defined.

Lemma falsy_some_false (key : string) : key <> "" -> falsy (Some key) = false.
Proof. destruct key; [congruence | reflexivity]. Qed.

(** C4, as the code has it: when the provider answers with an empty
    series the run shows the single error "No data available for T.
    Please try another indicator.", T being the title of the selected
    indicator, and no chart is rendered. *)
Theorem empty_series_no_data (W : World) (ui : Widgets) (key : string)
        (ind : indicator) :
  FRED_API_KEY W = Some key ->
  key <> "" ->
  Fred_ctor W key = None ->
  dict_get indicators (selected_indicator ui) = Some ind ->
  get_series W (series_id ind) (now W - quarters ui * 91) (now W) = inr [] ->
  result_of (main W ui) = Ok tt /\
  error_messages (events_of (main W ui)) =
    [ ("No data available for " ++ selected_indicator ui
       ++ ". Please try another indicator.")%string ] /\
  existsb is_chart (events_of (main W ui)) = false.
Proof.
  intros Hkey Hne Hctor Hind Hget.
  unfold main, initialize_fred, dict_item, get_economic_data, fred_get_series.
  rewrite Hkey, (falsy_some_false key Hne), Hctor, Hind.
  cbn [bind ret emit try_except app]. rewrite Hget.
  repeat split.
Qed.

Lemma empty_series_no_data_witness :
  result_of (main (Scenario.W_serving []) Scenario.ui_unrate) = Ok tt /\
  error_messages (events_of (main (Scenario.W_serving []) Scenario.ui_unrate)) =
    [ "No data available for Unemployment Rate. Please try another indicator." ] /\
  existsb is_chart (events_of (main (Scenario.W_serving []) Scenario.ui_unrate)) = false.
Proof.
  apply (empty_series_no_data (Scenario.W_serving []) Scenario.ui_unrate
           "0123456789abcdef0123456789abcdef"
           {| series_id := "UNRATE"; ind_units := "Percent" |}).
  - reflexivity.
  - discriminate.
  - reflexivity.
  - reflexivity.
  - reflexivity.
Defined.

(** C4 as stated fails: for the identifier UNRATE and an empty series, no
    message shown contains "No data available for UNRATE"; the message
    names the indicator by its title. *)
Lemma no_data_message_names_title :
  get_series (Scenario.W_serving []) "UNRATE" (20000 - 8 * 91) 20000 = inr [] /\
  dict_get indicators (selected_indicator Scenario.ui_unrate)
    = Some {| series_id := "UNRATE"; ind_units := "Percent" |} /\
  error_messages (events_of (main (Scenario.W_serving []) Scenario.ui_unrate)) =
    [ "No data available for Unemployment Rate. Please try another indicator." ] /\
  existsb (contains "No data available for UNRATE")
          (error_messages (events_of (main (Scenario.W_serving []) Scenario.ui_unrate)))
    = false.
Proof. repeat split. Qed.

(** With data present the same run does render a chart. *)
Example unrate_run_renders_chart :
  result_of (main (Scenario.W_serving Scenario.unrate_obs) Scenario.ui_unrate) = Ok tt /\
  existsb is_chart
          (events_of (main (Scenario.W_serving Scenario.unrate_obs) Scenario.ui_unrate))
    = true /\
  error_messages
    (events_of (main (Scenario.W_serving Scenario.unrate_obs) Scenario.ui_unrate)) = [].
Proof. vm_compute. repeat split. Qed.

(** C7, as the code has it: a style outside Line, Bar and Area gets the
    figure of the explicit Line path with the same title, the same axis
    labels (the y-axis label "title (units)" included) and the same layout;
    only the point markers are left out. *)
Theorem fallback_chart_is_line_without_markers (d : data_dict) (style : string) :
  style <> "Line" -> style <> "Bar" -> style <> "Area" ->
  exists fig line_fig,
    result_of (create_chart d style) = Ok (Some fig) /\
    result_of (create_chart d "Line") = Ok (Some line_fig) /\
    fig_kind fig = Scatter /\
    fig_yaxis_title fig = y_label (title d) (units d) /\
    fig_yaxis_title line_fig = y_label (title d) (units d) /\
    fig_markers line_fig = true /\
    fig = {| fig_kind := fig_kind line_fig;
             fig_x := fig_x line_fig;
             fig_y := fig_y line_fig;
             fig_markers := false;
             fig_color_discrete_sequence := fig_color_discrete_sequence line_fig;
             fig_title := fig_title line_fig;
             fig_xaxis_title := fig_xaxis_title line_fig;
             fig_yaxis_title := fig_yaxis_title line_fig;
             fig_template := fig_template line_fig;
             fig_height := fig_height line_fig |}.
Proof.
  intros H1 H2 H3. unfold create_chart.
  apply String.eqb_neq in H1, H2, H3. rewrite H1, H2, H3.
  eexists _, _. repeat split.
Qed.

Lemma fallback_chart_is_line_without_markers_witness :
  exists fig line_fig,
    result_of (create_chart Scenario.d_gdp "Scatter") = Ok (Some fig) /\
    result_of (create_chart Scenario.d_gdp "Line") = Ok (Some line_fig) /\
    fig_kind fig = Scatter /\
    fig_yaxis_title fig = y_label (title Scenario.d_gdp) (units Scenario.d_gdp) /\
    fig_yaxis_title line_fig = y_label (title Scenario.d_gdp) (units Scenario.d_gdp) /\
    fig_markers line_fig = true /\
    fig = {| fig_kind := fig_kind line_fig;
             fig_x := fig_x line_fig;
             fig_y := fig_y line_fig;
             fig_markers := false;
             fig_color_discrete_sequence := fig_color_discrete_sequence line_fig;
             fig_title := fig_title line_fig;
             fig_xaxis_title := fig_xaxis_title line_fig;
             fig_yaxis_title := fig_yaxis_title line_fig;
             fig_template := fig_template line_fig;
             fig_height := fig_height line_fig |}.
Proof.
  apply (fallback_chart_is_line_without_markers Scenario.d_gdp "Scatter");
    discriminate.
Defined.

(** C7 as stated fails: for the style "Scatter" the fallback figure
    carries the y-axis label, the very one of the explicit Line path. *)
Lemma fallback_chart_keeps_y_label :
  exists fig line_fig es es',
    create_chart Scenario.d_gdp "Scatter" = (Ok (Some fig), es) /\
    create_chart Scenario.d_gdp "Line" = (Ok (Some line_fig), es') /\
    fig_yaxis_title line_fig = "Gross Domestic Product (GDP) (Billions of Dollars)" /\
    fig_yaxis_title fig = "Gross Domestic Product (GDP) (Billions of Dollars)" /\
    fig_yaxis_title fig <> "".
Proof.
  eexists _, _, _, _. split; [vm_compute; reflexivity |].
  split; [vm_compute; reflexivity |].
  cbn. repeat split. discriminate.
Qed.

(** Already before the layout update, the labels passed to the plotting
    call are the same on both paths. *)
Example px_line_labels (d : data_dict) (markers : bool) :
  fig_yaxis_title
    (px_line (data d) "Quarter" "Value" (chart_title (title d) (data d))
             [("Value", y_label (title d) (units d)); ("Quarter", "")] markers)
  = y_label (title d) (units d).
Proof. reflexivity. Qed.

End AppSpec.

(** ** The logging set-up *)

Module LoggerConfigSpec.
Import LoggerConfig.

Lemma length_append (a b : string) :
  String.length (a ++ b) = (String.length a + String.length b)%nat.
Proof. induction a as [| c a IH]; cbn; [reflexivity | rewrite IH; reflexivity]. Qed.

Lemma append_inj_r (a b s : string) :
  (a ++ s = b ++ s)%string -> a = b.
Proof.
  revert b. induction a as [| c a IH]; intros b H.
  - destruct b as [| c' b]; [reflexivity |].
    exfalso. apply (f_equal String.length) in H.
    cbn in H. rewrite length_append in H. lia.
  - destruct b as [| c' b].
    + exfalso. apply (f_equal String.length) in H.
      cbn in H. rewrite length_append in H. lia.
    + cbn in H. inversion H. f_equal. apply IH. assumption.
Qed.

(** One log file per calendar day of set-up. *)
Lemma log_file_of_date_inj (d1 d2 : string) :
  log_file_of_date d1 = log_file_of_date d2 -> d1 = d2.
Proof.
  unfold log_file_of_date. intros H. cbn in H. inversion H as [H'].
  apply append_inj_r in H'. exact H'.
Qed.

(** A rollover never leaves more backups than allowed, and a record is
    always written. *)
Lemma doRollover_backups (n : Z) (fs : log_files) :
  0 < n -> (length (backups (doRollover n fs)) <= Z.to_nat n)%nat.
Proof.
  intros Hn. unfold doRollover.
  replace (0 <? n) with true by (symmetry; apply Z.ltb_lt; exact Hn).
  cbn [backups]. rewrite length_firstn. lia.
Qed.

Lemma emit_record_backups (m n : Z) (fs : log_files) (len : Z) :
  0 < n -> (length (backups fs) <= Z.to_nat n)%nat ->
  (length (backups (emit_record m n fs len)) <= Z.to_nat n)%nat.
Proof.
  intros Hn Hb. unfold emit_record.
  destruct (shouldRollover m fs len); cbn [backups]; [| exact Hb].
  apply doRollover_backups; exact Hn.
Qed.

Lemma emit_record_size (m n : Z) (fs : log_files) (len : Z) :
  0 < n -> 0 < m -> 0 <= len -> 0 <= base_size fs ->
  base_size (emit_record m n fs len) < m \/
  base_size (emit_record m n fs len) = len.
Proof.
  intros Hn Hm Hlen Hb. unfold emit_record, shouldRollover, doRollover.
  replace (0 <? m) with true by (symmetry; apply Z.ltb_lt; exact Hm).
  replace (0 <? n) with true by (symmetry; apply Z.ltb_lt; exact Hn).
  cbn [andb]. destruct (Z.leb_spec m (base_size fs + len)); cbn [base_size]; lia.
Qed.

(** C9, as the code has it: the logger built by [setup_logging] has two
    handlers.  The console handler receives exactly the records at INFO and
    above; the file handler receives every record, DEBUG and above.  The
    file is named after the date on which [setup_logging] ran and the name
    stays: a record created on any day is appended to that same file.  The
    file is rotated by size only: it is rolled over when a record would
    bring it to 10 MB (10 * 1024 * 1024 bytes), and at most 5 backups are
    kept. *)
Theorem setup_logging_configuration (logs_dir_exists : bool) (current_date : string)
        (existing : list Handler) :
  let lg := fst (setup_logging logs_dir_exists current_date existing) in
  lg_handlers lg =
    [ {| h_kind := StreamHandler; h_level := INFO; h_formatter := console_format |};
      {| h_kind := RotatingFileHandler (log_file_of_date current_date) 10485760 5;
         h_level := DEBUG; h_formatter := file_format |} ] /\
  (forall lvl,
      existsb is_console (dispatch lg lvl) = (levelno INFO <=? levelno lvl) /\
      existsb is_file (dispatch lg lvl) = (levelno DEBUG <=? levelno lvl) /\
      existsb is_file (dispatch lg lvl) = true) /\
  rotating_file (lg_handlers lg) =
    Some (("logs/app_" ++ current_date ++ ".log")%string, 10 * 1024 * 1024, 5) /\
  map h_kind (first_record_receivers
                (snd (setup_logging logs_dir_exists current_date existing)))
    = [ StreamHandler;
        RotatingFileHandler (log_file_of_date current_date) 10485760 5 ] /\
  (forall fs r,
      map (fun h => handler_emit h fs r) (lg_handlers lg) =
      [ None;
        Some {| w_file := ("logs/app_" ++ current_date ++ ".log")%string;
                w_rolled := (10485760 <=? base_size fs + line_length r);
                w_files := emit_record 10485760 5 fs (line_length r) |} ]) /\
  (forall fs len,
      shouldRollover 10485760 fs len = (10485760 <=? base_size fs + len) /\
      (length (backups (doRollover 5 fs)) <= 5)%nat /\
      backups (doRollover 5 fs) = firstn 5 (base_size fs :: backups fs) /\
      base_size (doRollover 5 fs) = 0).
Proof.
  cbn zeta. unfold setup_logging. cbn [fst].
  assert (E : match existing with [] => existing | _ :: _ => [] end = [])
    by (destruct existing; reflexivity).
  rewrite E. cbn [app lg_handlers].
  split; [reflexivity |]. split; [| split; [reflexivity |]].
  - intros lvl. destruct lvl; repeat split.
  - split; [reflexivity |]. split; [intros fs r; reflexivity |].
    intros fs len. repeat split.
    change 5%nat with (Z.to_nat 5). apply doRollover_backups. lia.
Qed.

(** The file is not a daily-rotating one.  With logging set up on
    2026-11-03, a line of 100 bytes created the day after goes to the file
    of 2026-11-03, and the file is not rolled over. *)
Lemma file_is_not_daily_rotating :
  exists h,
    In h (lg_handlers (fst (setup_logging true "2026-11-03" []))) /\
    is_file h = true /\
    handler_emit h {| base_size := 0; backups := [] |}
                 {| created_day := "2026-11-04"; levelname := INFO; line_length := 100 |}
    = Some {| w_file := "logs/app_2026-11-03.log"; w_rolled := false;
              w_files := {| base_size := 100; backups := [] |} |} /\
    ~ daily_rotating "2026-11-03" h.
Proof.
  exists {| h_kind := RotatingFileHandler (log_file_of_date "2026-11-03") 10485760 5;
            h_level := DEBUG; h_formatter := file_format |}.
  split; [right; left; reflexivity |].
  split; [reflexivity |]. split; [reflexivity |].
  intros H.
  destruct (H {| base_size := 0; backups := [] |}
              {| created_day := "2026-11-04"; levelname := INFO; line_length := 100 |}
              {| w_file := "logs/app_2026-11-03.log"; w_rolled := false;
                 w_files := {| base_size := 100; backups := [] |} |})
    as [Hf | Hr].
  - discriminate.
  - reflexivity.
  - apply Hf. reflexivity.
  - discriminate Hr.
Qed.

Example debug_goes_to_file_only :
  map h_kind (dispatch (fst (setup_logging true "2026-11-03" [])) DEBUG)
  = [ RotatingFileHandler "logs/app_2026-11-03.log" 10485760 5 ].
Proof. reflexivity. Qed.

Example info_goes_to_both :
  map h_kind (dispatch (fst (setup_logging true "2026-11-03" [])) INFO)
  = [ StreamHandler; RotatingFileHandler "logs/app_2026-11-03.log" 10485760 5 ].
Proof. reflexivity. Qed.

(** Six rollovers in a row: the oldest file is discarded. *)
Example sixth_rollover_discards_oldest :
  backups (doRollover 5 {| base_size := 60; backups := [50; 40; 30; 20; 10] |})
  = [60; 50; 40; 30; 20].
Proof. reflexivity. Qed.

End LoggerConfigSpec.

(* ------------------------------------------------------------------------- *)
(** * Further properties of the script *)

(** ** [calculate_change] *)

Module CalculateChangeFacts.
Import Float64 Float64Facts Numpy NumpyFacts Pandas PandasFacts App AppSpec.

(** The percent change is absent exactly below two rows; the function shows
    nothing and raises nothing, whatever the table. *)
Theorem calculate_change_none_iff (d : data_dict) :
  events_of (calculate_change d) = [] /\
  (exists r, result_of (calculate_change d) = Ok r) /\
  (result_of (calculate_change d) = Ok None <-> (length (data d) < 2)%nat).
Proof.
  rewrite calculate_change_eq. cbn [events_of result_of ret fst snd].
  split; [reflexivity |]. split; [eexists; reflexivity |].
  destruct (2 <=? length (data d))%nat eqn:E.
  - apply Nat.leb_le in E. split; [discriminate | lia].
  - apply Nat.leb_gt in E. split; [intros _; exact E | reflexivity].
Qed.

Lemma pct_nan (oldest newest : float) :
  isnan oldest = true \/ isnan newest = true -> pct oldest newest = nan.
Proof.
  unfold pct. rewrite of_Z_100.
  intros [H | H].
  - destruct oldest; try discriminate. destruct newest; reflexivity.
  - destruct newest; try discriminate. destruct oldest; reflexivity.
Qed.

(** When the oldest or the newest value is missing, the change is not
    absent: it is NaN. *)
Theorem calculate_change_missing_endpoint (d : data_dict) :
  (2 <= length (data d))%nat ->
  isnan (hd nan (values d)) = true \/ isnan (last (values d) nan) = true ->
  calculate_change d = ret (Some nan).
Proof.
  intros Hlen Hn. rewrite calculate_change_eq.
  replace (2 <=? length (data d))%nat with true by (symmetry; apply Nat.leb_le; lia).
  rewrite (pct_nan _ _ Hn). reflexivity.
Qed.

Lemma calculate_change_missing_endpoint_witness :
  calculate_change Scenario.d_missing = ret (Some nan).
Proof.
  apply (calculate_change_missing_endpoint Scenario.d_missing).
  - vm_compute; lia.
  - right. reflexivity.
Defined.

Lemma sub_diag_finite (s : bool) (m : positive) (e : Z) :
  sub (S754_finite s m e) (S754_finite s m e) = S754_zero false.
Proof.
  unfold sub, SFsub. cbn zeta. rewrite Z.min_id. unfold shl_align. rewrite Z.sub_diag.
  cbn [fst]. rewrite ?Z.sub_diag. reflexivity.
Qed.

(** When the newest value is the same finite, non-zero number as the
    oldest, the change is zero (with the sign of that number). *)
Theorem calculate_change_unchanged (d : data_dict) (s : bool) (m : positive) (e : Z) :
  (2 <= length (data d))%nat ->
  hd nan (values d) = S754_finite s m e ->
  last (values d) nan = S754_finite s m e ->
  calculate_change d = ret (Some (S754_zero s)).
Proof.
  intros Hlen Hh Hl. rewrite calculate_change_eq.
  replace (2 <=? length (data d))%nat with true by (symmetry; apply Nat.leb_le; lia).
  rewrite Hh, Hl. unfold pct. rewrite sub_diag_finite, of_Z_100.
  destruct s; reflexivity.
Qed.

Lemma calculate_change_unchanged_witness :
  calculate_change Scenario2.d_flat = ret (Some (S754_zero false)).
Proof.
  apply (calculate_change_unchanged Scenario2.d_flat false 5629499534213120 (-50)).
  - vm_compute; lia.
  - vm_compute; reflexivity.
  - vm_compute; reflexivity.
Defined.

End CalculateChangeFacts.

(** ** [get_economic_data] and the quarter labels *)

Module FetchFacts.
Import Float64 Pandas App AppSpec Trace Window.

(** On a window that Python's dates can represent, and whatever the
    provider does, one call sends exactly one request: for the given
    series, over the [91 * quarters] days that end now. *)
Theorem get_economic_data_one_request (W : World) (fred : Fred)
        (sid ttl unit_label : string) (nq : Z) :
  window_representable (now W) nq = true ->
  requests (events_of (get_economic_data W fred sid ttl unit_label nq))
  = [(sid, now W - nq * 91, now W)].
Proof.
  intros _. unfold get_economic_data, fred_get_series.
  destruct (get_series W sid (now W - nq * 91) (now W)) as [e | [| o obs]];
    reflexivity.
Qed.

Lemma get_economic_data_one_request_witness :
  requests (events_of (get_economic_data (Scenario2.W_failing "Bad Request")
                         Scenario2.a_client "UNRATE" "Unemployment Rate" "Percent" 8))
  = [("UNRATE", 20000 - 8 * 91, 20000)].
Proof.
  apply (get_economic_data_one_request (Scenario2.W_failing "Bad Request")
           Scenario2.a_client "UNRATE" "Unemployment Rate" "Percent" 8).
  vm_compute. reflexivity.
Defined.

Lemma shape_keeps (obs : list (Timestamp * float)) :
  map (fun r => (Date r, Value r)) (shape obs) = obs /\
  map Quarter (shape obs) = map (fun o => to_period_Q (fst o)) obs.
Proof.
  unfold shape. rewrite !map_map. cbn [Date Value Quarter]. split; [| reflexivity].
  induction obs as [| [t v] obs IH]; [reflexivity |].
  cbn [map fst snd]. rewrite IH. reflexivity.
Qed.

(** On a window that Python's dates can represent, a non-empty answer of
    the provider comes back as the table, row for row: same dates and
    values in the same order, missing values included, each with the label
    of its quarter; title and units are those given, and nothing is
    reported to the user. *)
Theorem get_economic_data_keeps_observations (W : World) (fred : Fred)
        (sid ttl unit_label : string) (nq : Z) (obs : list (Timestamp * float)) :
  window_representable (now W) nq = true ->
  get_series W sid (now W - nq * 91) (now W) = inr obs ->
  obs <> [] ->
  exists d,
    result_of (get_economic_data W fred sid ttl unit_label nq) = Ok (Some d) /\
    map (fun r => (Date r, Value r)) (data d) = obs /\
    map Quarter (data d) = map (fun o => to_period_Q (fst o)) obs /\
    title d = ttl /\ units d = unit_label /\
    error_messages (events_of (get_economic_data W fred sid ttl unit_label nq)) = [].
Proof.
  intros _ Hget Hne. unfold get_economic_data, fred_get_series. rewrite Hget.
  destruct obs as [| o obs]; [congruence |].
  eexists. split; [reflexivity |].
  cbn [data title units].
  destruct (shape_keeps (o :: obs)) as [H1 H2].
  repeat split; assumption.
Qed.

Lemma get_economic_data_keeps_observations_witness :
  exists d,
    result_of (get_economic_data (Scenario.W_serving Scenario2.monthly_obs)
                 Scenario2.a_client "UNRATE" "Unemployment Rate" "Percent" 8)
      = Ok (Some d) /\
    map (fun r => (Date r, Value r)) (data d) = Scenario2.monthly_obs /\
    map Quarter (data d) = map (fun o => to_period_Q (fst o)) Scenario2.monthly_obs /\
    title d = "Unemployment Rate" /\ units d = "Percent" /\
    error_messages
      (events_of (get_economic_data (Scenario.W_serving Scenario2.monthly_obs)
                    Scenario2.a_client "UNRATE" "Unemployment Rate" "Percent" 8)) = [].
Proof.
  apply (get_economic_data_keeps_observations
           (Scenario.W_serving Scenario2.monthly_obs) Scenario2.a_client
           "UNRATE" "Unemployment Rate" "Percent" 8 Scenario2.monthly_obs).
  - vm_compute. reflexivity.
  - reflexivity.
  - discriminate.
Defined.

Example monthly_labels :
  map (fun o => to_period_Q (fst o)) Scenario2.monthly_obs
  = ["2024Q1"; "2024Q1"; "2024Q1"; "2024Q2"].
Proof. reflexivity. Qed.

(** On a window that Python's dates can represent, a failing request is
    not propagated: the function returns [None] after one ERROR log line
    and one message to the user, both with the text of the exception. *)
Theorem get_economic_data_provider_error (W : World) (fred : Fred)
        (sid ttl unit_label : string) (nq : Z) (e : exn) :
  window_representable (now W) nq = true ->
  get_series W sid (now W - nq * 91) (now W) = inl e ->
  get_economic_data W fred sid ttl unit_label nq =
  (Ok None,
   [ Log INFO ("Fetching " ++ ttl ++ " data with series ID: " ++ sid);
     FredGetSeries sid (now W - nq * 91) (now W);
     Log ERROR ("Error fetching data for " ++ sid ++ ": " ++ exn_str e);
     StError ("Error fetching " ++ ttl ++ " data: " ++ exn_str e) ]).
Proof.
  intros _ Hget. unfold get_economic_data, fred_get_series. rewrite Hget.
  reflexivity.
Qed.

Lemma get_economic_data_provider_error_witness :
  get_economic_data (Scenario2.W_failing "Bad Request") Scenario2.a_client
                    "UNRATE" "Unemployment Rate" "Percent" 8 =
  (Ok None,
   [ Log INFO "Fetching Unemployment Rate data with series ID: UNRATE";
     FredGetSeries "UNRATE" (20000 - 8 * 91) 20000;
     Log ERROR "Error fetching data for UNRATE: Bad Request";
     StError "Error fetching Unemployment Rate data: Bad Request" ]).
Proof.
  apply (get_economic_data_provider_error (Scenario2.W_failing "Bad Request")
           Scenario2.a_client "UNRATE" "Unemployment Rate" "Percent" 8
           (ValueError "Bad Request")).
  - vm_compute. reflexivity.
  - reflexivity.
Defined.

End FetchFacts.

Module LabelFacts.
Import App Labels.

Lemma string_of_uint_no_Q (d : Decimal.uint) :
  no_Q (NilEmpty.string_of_uint d) = true.
Proof. induction d; cbn; auto. Qed.

Lemma str_nat_inj (a b : nat) : str_nat a = str_nat b -> a = b.
Proof.
  unfold str_nat. intros H.
  apply (f_equal NilEmpty.uint_of_string) in H.
  rewrite !NilEmpty.usu in H. inversion H as [H'].
  apply (f_equal Nat.of_uint) in H'.
  rewrite !DecimalNat.Unsigned.of_to in H'. exact H'.
Qed.

(** Two strings without Q, each followed by Q and a rest: equal wholes
    have equal parts. *)
Lemma split_at_Q (s1 : string) :
  forall s2 t1 t2,
    no_Q s1 = true -> no_Q s2 = true ->
    (s1 ++ String "Q" t1 = s2 ++ String "Q" t2)%string ->
    s1 = s2 /\ t1 = t2.
Proof.
  induction s1 as [| c s1 IH]; intros [| c' s2] t1 t2 H1 H2 H; cbn in *.
  - inversion H. auto.
  - inversion H as [[Hc Ht]]. subst c'. cbn in H2. discriminate.
  - inversion H as [[Hc Ht]]. subst c. cbn in H1. discriminate.
  - inversion H as [[Hc Ht]]. subst c'.
    apply andb_true_iff in H1. apply andb_true_iff in H2.
    destruct (IH s2 t1 t2) as [E1 E2]; try tauto.
    subst. auto.
Qed.

(** Two timestamps carry the same quarter label exactly when they lie in
    the same quarter of the same year: the label neither merges distinct
    quarters nor separates the months of one. *)
Theorem to_period_Q_same_label_iff (t1 t2 : Timestamp) :
  to_period_Q t1 = to_period_Q t2 <->
  ts_year t1 = ts_year t2 /\
  quarter_of_month (ts_month t1) = quarter_of_month (ts_month t2).
Proof.
  unfold to_period_Q. split.
  - intros H. cbn [String.append] in H.
    apply split_at_Q in H; try apply string_of_uint_no_Q.
    destruct H as [Hy Hq]. split; apply str_nat_inj; assumption.
  - intros [Hy Hq]. rewrite Hy, Hq. reflexivity.
Qed.

End LabelFacts.

(** ** [create_chart] *)

Module ChartFacts.
Import Float64 App AppSpec Trace.

(** For every style and every table, [create_chart] returns a figure after
    one INFO log line, and never an error.  The figure plots the table's
    quarters against its values, one point per row; title, axis titles,
    theme and height do not depend on the style, which decides only the
    kind of trace, the markers and the colour. *)
Theorem create_chart_layout (d : data_dict) (style : string) :
  exists fig,
    create_chart d style =
      (Ok (Some fig), [Log INFO ("Creating " ++ style ++ " chart for " ++ title d)]) /\
    fig_x fig = quarters_col d /\
    fig_y fig = values d /\
    length (fig_x fig) = length (data d) /\
    length (fig_y fig) = length (data d) /\
    fig_title fig =
      (title d ++ " - Last " ++ str_nat (length (data d)) ++ " Quarters")%string /\
    fig_xaxis_title fig = "" /\
    fig_yaxis_title fig = (title d ++ " (" ++ units d ++ ")")%string /\
    fig_template fig = Some "plotly_white" /\
    fig_height fig = Some 500 /\
    (fig_kind fig, fig_markers fig, fig_color_discrete_sequence fig) =
      (if String.eqb style "Line" then (Scatter, true, None)
       else if String.eqb style "Bar" then (Bar, false, Some ["#1E88E5"])
       else if String.eqb style "Area" then (AreaScatter, false, Some ["#1E88E5"])
       else (Scatter, false, None)).
Proof.
  unfold create_chart.
  destruct (String.eqb style "Line"); [| destruct (String.eqb style "Bar");
    [| destruct (String.eqb style "Area")]];
    eexists; (split; [reflexivity |]);
    cbn; unfold quarters_col, values; rewrite !length_map; repeat split.
Qed.

Example bar_chart_of_four_rows :
  exists fig es,
    create_chart Scenario.d_ties "Bar" = (Ok (Some fig), es) /\
    fig_kind fig = Bar /\ length (fig_x fig) = 4%nat /\
    fig_title fig = "Federal Funds Rate - Last 4 Quarters".
Proof. eexists _, _. split; [vm_compute; reflexivity |]. repeat split. Qed.

End ChartFacts.

(** ** [initialize_fred] *)

Module InitFacts.
Import App AppSpec Trace.

(** [initialize_fred] always returns, never requests a series, and returns
    a client exactly when the environment holds a non-empty key that the
    client constructor accepts; the client then carries that key. *)
Theorem initialize_fred_client_iff (W : World) :
  (exists r, result_of (initialize_fred W) = Ok r) /\
  requests (events_of (initialize_fred W)) = [] /\
  (forall c,
      result_of (initialize_fred W) = Ok (Some c) <->
      FRED_API_KEY W = Some (api_key c) /\ api_key c <> "" /\
      Fred_ctor W (api_key c) = None).
Proof.
  unfold initialize_fred.
  destruct (FRED_API_KEY W) as [[| a k] |] eqn:Hk; cbn [falsy].
  - split; [eexists; reflexivity |]. split; [reflexivity |].
    intros c. split; [discriminate |].
    intros (H1 & H2 & _). inversion H1. congruence.
  - destruct (Fred_ctor W (String a k)) as [e |] eqn:Hc.
    + split; [eexists; reflexivity |]. split; [reflexivity |].
      intros c. split; [discriminate |].
      intros (H1 & _ & H3). inversion H1 as [H1']. rewrite <- H1' in H3. congruence.
    + split; [eexists; reflexivity |]. split; [reflexivity |].
      intros [k']. cbn [api_key]. split.
      * intros H. cbn in H. inversion H. subst k'.
        repeat split; [discriminate | exact Hc].
      * intros (H1 & _ & _). inversion H1. reflexivity.
  - split; [eexists; reflexivity |]. split; [reflexivity |].
    intros c. split; [discriminate |]. intros (H1 & _). discriminate.
Qed.

End InitFacts.

(** ** What a computation shows *)

Module TraceFacts.
Import Float64 Numpy Pandas PandasFacts App AppSpec Trace.

Lemma shows_only_ret {A} P (a : A) : shows_only P (ret a).
Proof. split; [reflexivity | discriminate]. Qed.

Lemma shows_only_raise {A} P (e : exn) : shows_only P (@raise A e).
Proof. split; [reflexivity | discriminate]. Qed.

Lemma shows_only_emit P (e : event) : P e = true -> shows_only P (emit e).
Proof.
  intros H. split; [| discriminate].
  unfold emits_only. cbn. rewrite H. reflexivity.
Qed.

Lemma shows_only_pure {A} P (m : M A) : pure_op m -> shows_only P m.
Proof.
  intros [He Hr]. split; [| exact Hr]. unfold emits_only. rewrite He. reflexivity.
Qed.

Lemma shows_only_bind {A B} P (m : M A) (f : A -> M B) :
  shows_only P m -> (forall a, shows_only P (f a)) -> shows_only P (bind m f).
Proof.
  unfold shows_only, emits_only.
  destruct m as [[a | e |] es]; cbn; intros [He Hr] Hf.
  - destruct (Hf a) as [Hfe Hfr]. destruct (f a) as [o es'].
    cbn in *. rewrite forallb_app, He, Hfe. split; [reflexivity | exact Hfr].
  - split; [exact He | discriminate].
  - congruence.
Qed.

Lemma pure_op_ret {A} (a : A) : pure_op (ret a).
Proof. split; [reflexivity | discriminate]. Qed.

Lemma pure_op_raise {A} (e : exn) : pure_op (@raise A e).
Proof. split; [reflexivity | discriminate]. Qed.

Lemma pure_op_iloc {A} (s : list A) (i : Z) : pure_op (iloc s i).
Proof.
  unfold iloc.
  destruct ((0 <=? (if i <? 0 then Z.of_nat (length s) + i else i)) &&
            ((if i <? 0 then Z.of_nat (length s) + i else i) <? Z.of_nat (length s)));
    [destruct (nth_error s _) |]; auto using pure_op_ret, pure_op_raise.
Qed.

Lemma pure_op_loc {A} (s : list A) (i : nat) : pure_op (loc s i).
Proof. unfold loc. destruct (nth_error s i); auto using pure_op_ret, pure_op_raise. Qed.

Lemma pure_op_min (s : Series) : pure_op (min s).
Proof. destruct (min_returns s) as [b ->]. apply pure_op_ret. Qed.

Lemma pure_op_max (s : Series) : pure_op (max s).
Proof. destruct (max_returns s) as [b ->]. apply pure_op_ret. Qed.

Lemma pure_op_idxmin (s : Series) : pure_op (idxmin s).
Proof.
  unfold idxmin. destruct s as [| x t]; [apply pure_op_raise |].
  cbn [fillna map argmin]. rewrite bind_ret_l.
  destruct (count (x :: t) <? 1)%nat; auto using pure_op_ret, pure_op_raise.
Qed.

Lemma pure_op_idxmax (s : Series) : pure_op (idxmax s).
Proof.
  unfold idxmax. destruct s as [| x t]; [apply pure_op_raise |].
  cbn [fillna map argmax]. rewrite bind_ret_l.
  destruct (count (x :: t) <? 1)%nat; auto using pure_op_ret, pure_op_raise.
Qed.

Lemma pure_op_argmin (a : list float) : pure_op (argmin a).
Proof. destruct a; [apply pure_op_raise | apply pure_op_ret]. Qed.

Lemma pure_op_argmax (a : list float) : pure_op (argmax a).
Proof. destruct a; [apply pure_op_raise | apply pure_op_ret]. Qed.

Lemma pure_op_if {A} (b : bool) (m1 m2 : M A) :
  pure_op m1 -> pure_op m2 -> pure_op (if b then m1 else m2).
Proof. destruct b; auto. Qed.

Lemma pure_op_calculate_change (d : data_dict) : pure_op (calculate_change d).
Proof. rewrite calculate_change_eq. apply pure_op_ret. Qed.

(** The statistics column shows statistics widgets only, also when it
    fails half-way, and never halts the script. *)
Lemma key_statistics_shows (d : data_dict) (unit_label : string) :
  shows_only is_stats_widget (key_statistics d unit_label).
Proof.
  unfold key_statistics.
  repeat (apply shows_only_bind; [| intros ?]);
    try (apply shows_only_emit; reflexivity);
    try apply shows_only_ret;
    apply shows_only_pure;
    auto using pure_op_iloc, pure_op_loc, pure_op_min, pure_op_max,
               pure_op_idxmin, pure_op_idxmax, pure_op_calculate_change,
               pure_op_argmin, pure_op_argmax, pure_op_if, pure_op_ret, pure_op_raise.
Qed.

(** On a table whose values are all missing the statistics column fails. *)
Lemma key_statistics_all_missing (d : data_dict) (unit_label : string) :
  count (values d) = 0%nat ->
  exists e es, key_statistics d unit_label = (Raised e, es).
Proof.
  intros Hc.
  pose proof (key_statistics_shows d unit_label) as [_ Hns].
  destruct (key_statistics d unit_label) as [[st | e |] es] eqn:E; eauto.
  - exfalso. revert E. unfold key_statistics. fold (values d). fold (quarters_col d).
    destruct (iloc (values d) (-1)) as [[lv | ? |] l1] eqn:E1; cbn [bind];
      try discriminate.
    destruct (iloc (quarters_col d) (-1)) as [[lq | ? |] l2] eqn:E2; cbn [bind];
      try discriminate.
    rewrite calculate_change_eq. rewrite bind_ret_l, bind_emit.
    destruct (min_returns (values d)) as [b ->]. rewrite bind_ret_l.
    assert (Hi : exists e, idxmin (values d) = raise e).
    { unfold idxmin. rewrite Hc. cbn [Nat.ltb Nat.leb].
      destruct (values d) as [| x t]; [eexists; reflexivity |].
      cbn [fillna map argmin]. rewrite bind_ret_l. eexists; reflexivity. }
    destruct Hi as [e ->]. cbn. discriminate.
  - cbn in Hns. congruence.
Qed.

Lemma create_chart_returns (d : data_dict) (style : string) :
  exists fig,
    create_chart d style =
    (Ok (Some fig), [Log INFO ("Creating " ++ style ++ " chart for " ++ title d)]).
Proof.
  unfold create_chart.
  destruct (String.eqb style "Line"); [| destruct (String.eqb style "Bar");
    [| destruct (String.eqb style "Area")]]; eexists; reflexivity.
Qed.

(** Every indicator of the catalog has its description. *)
Lemma catalog_described (name : string) (ind : indicator) :
  dict_get indicators name = Some ind ->
  exists s, dict_get descriptions name = Some s.
Proof.
  unfold indicators, descriptions. cbn [dict_get].
  repeat match goal with
         | |- context [String.eqb ?k name] => destruct (String.eqb k name); eauto
         end.
  discriminate.
Qed.

End TraceFacts.

(** ** One run of [main], case by case *)

Module RunFacts.
Import Float64 Pandas PandasFacts App AppSpec Trace TraceFacts Page.

Ltac run_step := cbn [bind ret emit raise stop try_except app].

Ltac unfold_main :=
  unfold main, initialize_fred, key_not_found, dict_item, get_economic_data,
         fred_get_series, chart_column.

Lemma main_no_key (W : World) (ui : Widgets) :
  falsy (FRED_API_KEY W) = true ->
  main W ui =
  (Stopped,
   header_events ++
   [ Log INFO "Initializing FRED API client";
     Log ERROR "FRED API key not found in environment variables";
     StError "FRED API key not found. Please check your .env file." ]).
Proof. intros Hk. unfold_main. rewrite Hk. reflexivity. Qed.

Lemma main_client_error (W : World) (ui : Widgets) (key : string) (e : exn) :
  FRED_API_KEY W = Some key -> key <> "" -> Fred_ctor W key = Some e ->
  main W ui =
  (Stopped,
   header_events ++ client_events key ++
   [ Log ERROR ("Error initializing FRED API client: " ++ exn_str e);
     StError ("Error initializing FRED API: " ++ exn_str e) ]).
Proof.
  intros Hk Hne Hc. unfold_main.
  rewrite Hk, (falsy_some_false key Hne), Hc. reflexivity.
Qed.

Lemma main_unknown_indicator (W : World) (ui : Widgets) (key : string) :
  FRED_API_KEY W = Some key -> key <> "" -> Fred_ctor W key = None ->
  dict_get indicators (selected_indicator ui) = None ->
  main W ui =
  (Ok tt,
   header_events ++ client_events key ++ sidebar_events ++
   [ Log ERROR ("Application error: " ++ exn_str (KeyError (py_repr (selected_indicator ui))));
     StError ("An error occurred: " ++ exn_str (KeyError (py_repr (selected_indicator ui)))) ]).
Proof.
  intros Hk Hne Hc Hi. unfold_main.
  rewrite Hk, (falsy_some_false key Hne), Hc, Hi. reflexivity.
Qed.

(** An indicator that the catalogue does not hold: the message shown is
    the key as [repr] writes it. *)
Example unknown_indicator_message :
  error_messages
    (events_of (main (Scenario.W_serving [])
                     {| selected_indicator := "Inflation"; chart_type := "Line";
                        quarters := 8 |}))
  = [ "An error occurred: 'Inflation'" ].
Proof. vm_compute. reflexivity. Qed.

Lemma main_provider_error (W : World) (ui : Widgets) (key : string)
      (ind : indicator) (e : exn) :
  FRED_API_KEY W = Some key -> key <> "" -> Fred_ctor W key = None ->
  dict_get indicators (selected_indicator ui) = Some ind ->
  get_series W (series_id ind) (now W - quarters ui * 91) (now W) = inl e ->
  main W ui =
  (Ok tt,
   header_events ++ client_events key ++ sidebar_events ++
   [ Log INFO ("Fetching " ++ selected_indicator ui ++ " data with series ID: "
               ++ series_id ind);
     FredGetSeries (series_id ind) (now W - quarters ui * 91) (now W);
     Log ERROR ("Error fetching data for " ++ series_id ind ++ ": " ++ exn_str e);
     StError ("Error fetching " ++ selected_indicator ui ++ " data: " ++ exn_str e);
     Log WARNING ("No data returned for " ++ selected_indicator ui);
     StError (no_data_message (selected_indicator ui)) ] ++
   footer_events).
Proof.
  intros Hk Hne Hc Hi Hg. unfold_main.
  rewrite Hk, (falsy_some_false key Hne), Hc, Hi. run_step. rewrite Hg.
  reflexivity.
Qed.

Lemma main_empty_series (W : World) (ui : Widgets) (key : string) (ind : indicator) :
  FRED_API_KEY W = Some key -> key <> "" -> Fred_ctor W key = None ->
  dict_get indicators (selected_indicator ui) = Some ind ->
  get_series W (series_id ind) (now W - quarters ui * 91) (now W) = inr [] ->
  main W ui =
  (Ok tt,
   header_events ++ client_events key ++ sidebar_events ++
   [ Log INFO ("Fetching " ++ selected_indicator ui ++ " data with series ID: "
               ++ series_id ind);
     FredGetSeries (series_id ind) (now W - quarters ui * 91) (now W);
     Log WARNING ("No data returned for series " ++ series_id ind);
     Log WARNING ("No data returned for " ++ selected_indicator ui);
     StError (no_data_message (selected_indicator ui)) ] ++
   footer_events).
Proof.
  intros Hk Hne Hc Hi Hg. unfold_main.
  rewrite Hk, (falsy_some_false key Hne), Hc, Hi. run_step. rewrite Hg.
  reflexivity.
Qed.

Lemma main_with_data (W : World) (ui : Widgets) (key : string) (ind : indicator)
      (o : Timestamp * float) (obs : list (Timestamp * float)) :
  FRED_API_KEY W = Some key -> key <> "" -> Fred_ctor W key = None ->
  dict_get indicators (selected_indicator ui) = Some ind ->
  get_series W (series_id ind) (now W - quarters ui * 91) (now W) = inr (o :: obs) ->
  let d := table_of ui ind (o :: obs) in
  exists fig,
    result_of (create_chart d (chart_type ui)) = Ok (Some fig) /\
    main W ui =
    (match result_of (key_statistics d (ind_units ind)) with
     | Stopped => Stopped
     | _ => Ok tt
     end,
     header_events ++ client_events key ++ sidebar_events ++
     data_events W ui ind d fig ++
     events_of (key_statistics d (ind_units ind)) ++
     after_statistics ui (result_of (key_statistics d (ind_units ind)))).
Proof.
  intros Hk Hne Hc Hi Hg d.
  destruct (create_chart_returns d (chart_type ui)) as (fig & Hfig).
  exists fig. split; [rewrite Hfig; reflexivity |].
  unfold_main.
  rewrite Hk, (falsy_some_false key Hne), Hc, Hi. run_step. rewrite Hg.
  cbn [bind ret emit raise stop try_except app Pandas.empty].
  fold (table_of ui ind (o :: obs)). fold d.
  replace (negb (Pandas.empty (data d))) with true by reflexivity.
  rewrite Hfig. run_step.
  destruct (key_statistics d (ind_units ind)) as [[st | e |] es];
    cbn [result_of events_of fst snd after_statistics bind emit ret try_except app];
    unfold data_events, header_events, client_events, sidebar_events, footer_events;
    cbn [app title data d table_of selected_indicator];
    rewrite <- ?app_assoc; cbn [app]; rewrite ?app_nil_r; reflexivity.
Qed.

Lemma run_case_total (W : World) (ui : Widgets) : run_case W ui.
Proof.
  destruct (FRED_API_KEY W) as [[| a k] |] eqn:Hk.
  - apply NoKey. rewrite Hk. reflexivity.
  - assert (Hne : String a k <> "") by discriminate.
    destruct (Fred_ctor W (String a k)) as [e |] eqn:Hc;
      [eapply ClientError; eauto |].
    destruct (dict_get indicators (selected_indicator ui)) as [ind |] eqn:Hi;
      [| eapply UnknownIndicator; eauto].
    destruct (get_series W (series_id ind) (now W - quarters ui * 91) (now W))
      as [e | [| o obs]] eqn:Hg.
    + eapply ProviderError; eauto.
    + eapply EmptySeries; eauto.
    + eapply WithData; eauto.
  - apply NoKey. rewrite Hk. reflexivity.
Qed.

Lemma stats_events (es : list event) :
  forallb is_stats_widget es = true ->
  requests es = [] /\ charts es = [] /\ error_messages es = [] /\
  ~ In (StSidebar "---") es.
Proof.
  induction es as [| e es IH]; cbn [forallb]; [intros _; repeat split; auto |].
  intros H. apply andb_true_iff in H. destruct H as [He Hes].
  destruct (IH Hes) as (H1 & H2 & H3 & H4).
  destruct e; try discriminate; cbn [requests charts error_messages flat_map app];
    repeat split; auto; intros [C | C]; try discriminate; auto.
Qed.

Lemma requests_app (a b : list event) : requests (a ++ b) = requests a ++ requests b.
Proof. apply flat_map_app. Qed.

Lemma charts_app (a b : list event) : charts (a ++ b) = charts a ++ charts b.
Proof. apply flat_map_app. Qed.

Lemma error_messages_app (a b : list event) :
  error_messages (a ++ b) = error_messages a ++ error_messages b.
Proof. apply flat_map_app. Qed.

Lemma values_table_of (ui : Widgets) (ind : indicator) (obs : list (Timestamp * float)) :
  values (table_of ui ind obs) = map snd obs.
Proof.
  unfold values, table_of, shape. cbn [data]. rewrite map_map. reflexivity.
Qed.

Ltac split_events :=
  rewrite ?requests_app, ?charts_app, ?error_messages_app.

(** A run never ends with an exception: it completes or it is halted, and
    it is halted exactly when no client could be built, the key being
    missing, empty, or refused by the client's constructor. *)
Theorem main_completes_or_halts (W : World) (ui : Widgets) :
  (result_of (main W ui) = Ok tt \/ result_of (main W ui) = Stopped) /\
  (result_of (main W ui) = Stopped <->
   falsy (FRED_API_KEY W) = true \/
   exists key e, FRED_API_KEY W = Some key /\ Fred_ctor W key = Some e).
Proof.
  destruct (run_case_total W ui) as
    [Hf | key e Hk Hne Hc | key Hk Hne Hc Hi | key ind e Hk Hne Hc Hi Hg
     | key ind Hk Hne Hc Hi Hg | key ind o obs Hk Hne Hc Hi Hg].
  - rewrite (main_no_key W ui Hf). cbn. split; [right; reflexivity |].
    split; auto.
  - rewrite (main_client_error W ui key e Hk Hne Hc). cbn.
    split; [right; reflexivity |]. split; [| reflexivity].
    intros _. right. eauto.
  - rewrite (main_unknown_indicator W ui key Hk Hne Hc Hi). cbn.
    split; [left; reflexivity |]. split; [discriminate |].
    intros [Hf | (k' & e' & Hk' & Hc')].
    + rewrite Hk, (falsy_some_false key Hne) in Hf. discriminate.
    + congruence.
  - rewrite (main_provider_error W ui key ind e Hk Hne Hc Hi Hg). cbn.
    split; [left; reflexivity |]. split; [discriminate |].
    intros [Hf | (k' & e' & Hk' & Hc')].
    + rewrite Hk, (falsy_some_false key Hne) in Hf. discriminate.
    + congruence.
  - rewrite (main_empty_series W ui key ind Hk Hne Hc Hi Hg). cbn.
    split; [left; reflexivity |]. split; [discriminate |].
    intros [Hf | (k' & e' & Hk' & Hc')].
    + rewrite Hk, (falsy_some_false key Hne) in Hf. discriminate.
    + congruence.
  - destruct (main_with_data W ui key ind o obs Hk Hne Hc Hi Hg) as (fig & _ & ->).
    cbn [result_of fst].
    destruct (key_statistics_shows (table_of ui ind (o :: obs)) (ind_units ind))
      as [_ Hns].
    destruct (result_of (key_statistics (table_of ui ind (o :: obs)) (ind_units ind)))
      as [st | x |]; [| | congruence];
      (split; [left; reflexivity |]); (split; [discriminate |]);
      intros [Hf | (k' & e' & Hk' & Hc')];
      try (rewrite Hk, (falsy_some_false key Hne) in Hf; discriminate);
      congruence.
Qed.

(** A run sends at most one request to the provider and renders at most
    one chart, and it renders none without having sent a request. *)
Theorem main_at_most_one_request (W : World) (ui : Widgets) :
  (length (requests (events_of (main W ui))) <= 1)%nat /\
  (length (charts (events_of (main W ui))) <= 1)%nat /\
  (requests (events_of (main W ui)) = [] -> charts (events_of (main W ui)) = []).
Proof.
  destruct (run_case_total W ui) as
    [Hf | key e Hk Hne Hc | key Hk Hne Hc Hi | key ind e Hk Hne Hc Hi Hg
     | key ind Hk Hne Hc Hi Hg | key ind o obs Hk Hne Hc Hi Hg].
  - rewrite (main_no_key W ui Hf). cbn. repeat split; auto.
  - rewrite (main_client_error W ui key e Hk Hne Hc). cbn. repeat split; auto.
  - rewrite (main_unknown_indicator W ui key Hk Hne Hc Hi). cbn. repeat split; auto.
  - rewrite (main_provider_error W ui key ind e Hk Hne Hc Hi Hg). cbn.
    repeat split; auto.
  - rewrite (main_empty_series W ui key ind Hk Hne Hc Hi Hg). cbn.
    repeat split; auto.
  - destruct (main_with_data W ui key ind o obs Hk Hne Hc Hi Hg) as (fig & _ & ->).
    cbn [events_of snd].
    destruct (key_statistics_shows (table_of ui ind (o :: obs)) (ind_units ind))
      as [Hes _].
    apply stats_events in Hes. destruct Hes as (Hr & Hch & _ & _).
    split_events. rewrite Hr, Hch.
    destruct (result_of (key_statistics (table_of ui ind (o :: obs)) (ind_units ind)));
      cbn; repeat split; auto; discriminate.
Qed.

Lemma create_chart_data (d : data_dict) (style : string) (fig : Figure) :
  result_of (create_chart d style) = Ok (Some fig) ->
  fig_x fig = quarters_col d /\ fig_y fig = values d.
Proof.
  unfold create_chart.
  destruct (String.eqb style "Line"); [| destruct (String.eqb style "Bar");
    [| destruct (String.eqb style "Area")]];
    cbn; intros H; inversion H; split; reflexivity.
Qed.

(** A chart appears only for a non-empty answer of the provider, and then
    it is the figure of that very answer: the one request of the run asked
    for the selected indicator's series, and the chart plots the values
    received, in the order received. *)
Theorem chart_shows_fetched_series (W : World) (ui : Widgets) :
  charts (events_of (main W ui)) <> [] ->
  exists key ind obs fig,
    FRED_API_KEY W = Some key /\
    dict_get indicators (selected_indicator ui) = Some ind /\
    get_series W (series_id ind) (now W - quarters ui * 91) (now W) = inr obs /\
    obs <> [] /\
    requests (events_of (main W ui))
      = [(series_id ind, now W - quarters ui * 91, now W)] /\
    charts (events_of (main W ui)) = [fig] /\
    result_of (create_chart (table_of ui ind obs) (chart_type ui)) = Ok (Some fig) /\
    fig_y fig = map snd obs /\
    fig_x fig = map (fun o => to_period_Q (fst o)) obs.
Proof.
  destruct (run_case_total W ui) as
    [Hf | key e Hk Hne Hc | key Hk Hne Hc Hi | key ind e Hk Hne Hc Hi Hg
     | key ind Hk Hne Hc Hi Hg | key ind o obs Hk Hne Hc Hi Hg].
  - rewrite (main_no_key W ui Hf). cbn. congruence.
  - rewrite (main_client_error W ui key e Hk Hne Hc). cbn. congruence.
  - rewrite (main_unknown_indicator W ui key Hk Hne Hc Hi). cbn. congruence.
  - rewrite (main_provider_error W ui key ind e Hk Hne Hc Hi Hg). cbn. congruence.
  - rewrite (main_empty_series W ui key ind Hk Hne Hc Hi Hg). cbn. congruence.
  - intros _.
    destruct (main_with_data W ui key ind o obs Hk Hne Hc Hi Hg) as (fig & Hfig & ->).
    cbn [events_of snd].
    destruct (key_statistics_shows (table_of ui ind (o :: obs)) (ind_units ind))
      as [Hes _].
    apply stats_events in Hes. destruct Hes as (Hr & Hch & _ & _).
    destruct (create_chart_data _ _ _ Hfig) as [Hx Hy].
    exists key, ind, (o :: obs), fig.
    split; [exact Hk |]. split; [exact Hi |]. split; [exact Hg |].
    split; [discriminate |].
    split_events. rewrite Hr, Hch.
    split; [| split; [| split; [exact Hfig | split]]].
    + destruct (result_of (key_statistics (table_of ui ind (o :: obs)) (ind_units ind)));
        reflexivity.
    + destruct (result_of (key_statistics (table_of ui ind (o :: obs)) (ind_units ind)));
        reflexivity.
    + rewrite Hy. apply values_table_of.
    + rewrite Hx. unfold quarters_col, table_of, shape. cbn [data].
      rewrite map_map. reflexivity.
Qed.

Lemma chart_shows_fetched_series_witness :
  exists key ind obs fig,
    FRED_API_KEY (Scenario.W_serving Scenario.unrate_obs) = Some key /\
    dict_get indicators (selected_indicator Scenario.ui_unrate) = Some ind /\
    get_series (Scenario.W_serving Scenario.unrate_obs) (series_id ind)
               (now (Scenario.W_serving Scenario.unrate_obs)
                - quarters Scenario.ui_unrate * 91)
               (now (Scenario.W_serving Scenario.unrate_obs)) = inr obs /\
    obs <> [] /\
    requests (events_of (main (Scenario.W_serving Scenario.unrate_obs) Scenario.ui_unrate))
      = [(series_id ind,
          now (Scenario.W_serving Scenario.unrate_obs) - quarters Scenario.ui_unrate * 91,
          now (Scenario.W_serving Scenario.unrate_obs))] /\
    charts (events_of (main (Scenario.W_serving Scenario.unrate_obs) Scenario.ui_unrate))
      = [fig] /\
    result_of (create_chart (table_of Scenario.ui_unrate ind obs)
                            (chart_type Scenario.ui_unrate)) = Ok (Some fig) /\
    fig_y fig = map snd obs /\
    fig_x fig = map (fun o => to_period_Q (fst o)) obs.
Proof.
  apply (chart_shows_fetched_series (Scenario.W_serving Scenario.unrate_obs)
                                    Scenario.ui_unrate).
  vm_compute. discriminate.
Defined.

(** When the request fails, the user is shown two messages, the error of
    the fetch and then "No data available ...", and neither chart nor
    statistics; the run completes. *)
Theorem provider_error_shows_two_messages (W : World) (ui : Widgets) (key : string)
        (ind : indicator) (e : exn) :
  FRED_API_KEY W = Some key -> key <> "" -> Fred_ctor W key = None ->
  dict_get indicators (selected_indicator ui) = Some ind ->
  get_series W (series_id ind) (now W - quarters ui * 91) (now W) = inl e ->
  result_of (main W ui) = Ok tt /\
  error_messages (events_of (main W ui)) =
    [ ("Error fetching " ++ selected_indicator ui ++ " data: " ++ exn_str e)%string;
      ("No data available for " ++ selected_indicator ui
       ++ ". Please try another indicator.")%string ] /\
  charts (events_of (main W ui)) = [] /\
  existsb is_metric (events_of (main W ui)) = false.
Proof.
  intros Hk Hne Hc Hi Hg.
  rewrite (main_provider_error W ui key ind e Hk Hne Hc Hi Hg).
  repeat split.
Qed.

Lemma provider_error_shows_two_messages_witness :
  result_of (main (Scenario2.W_failing "Bad Request") Scenario.ui_unrate) = Ok tt /\
  error_messages (events_of (main (Scenario2.W_failing "Bad Request") Scenario.ui_unrate)) =
    [ "Error fetching Unemployment Rate data: Bad Request";
      "No data available for Unemployment Rate. Please try another indicator." ] /\
  charts (events_of (main (Scenario2.W_failing "Bad Request") Scenario.ui_unrate)) = [] /\
  existsb is_metric
          (events_of (main (Scenario2.W_failing "Bad Request") Scenario.ui_unrate)) = false.
Proof.
  apply (provider_error_shows_two_messages (Scenario2.W_failing "Bad Request")
           Scenario.ui_unrate "0123456789abcdef0123456789abcdef"
           {| series_id := "UNRATE"; ind_units := "Percent" |}
           (ValueError "Bad Request")); try reflexivity.
  discriminate.
Defined.

(** A key that the client's constructor refuses halts the run like a
    missing one: the user sees the constructor's error and no request is
    sent. *)
Theorem refused_key_halts (W : World) (ui : Widgets) (key : string) (e : exn) :
  FRED_API_KEY W = Some key -> key <> "" -> Fred_ctor W key = Some e ->
  result_of (main W ui) = Stopped /\
  error_messages (events_of (main W ui)) =
    [ ("Error initializing FRED API: " ++ exn_str e)%string ] /\
  requests (events_of (main W ui)) = [] /\
  charts (events_of (main W ui)) = [].
Proof.
  intros Hk Hne Hc. rewrite (main_client_error W ui key e Hk Hne Hc).
  repeat split.
Qed.

Lemma refused_key_halts_witness :
  result_of (main (Scenario2.W_bad_key "bad key") Scenario.ui_unrate) = Stopped /\
  error_messages (events_of (main (Scenario2.W_bad_key "bad key") Scenario.ui_unrate)) =
    [ "Error initializing FRED API: bad key" ] /\
  requests (events_of (main (Scenario2.W_bad_key "bad key") Scenario.ui_unrate)) = [] /\
  charts (events_of (main (Scenario2.W_bad_key "bad key") Scenario.ui_unrate)) = [].
Proof.
  apply (refused_key_halts (Scenario2.W_bad_key "bad key") Scenario.ui_unrate
           "short" (ValueError "bad key")); try reflexivity.
  discriminate.
Defined.

Lemma prefix_append (s t : string) : String.prefix s (s ++ t) = true.
Proof.
  induction s as [| c s IH]; cbn; [destruct t; reflexivity |].
  destruct (ascii_dec c c); [exact IH | congruence].
Qed.

(** With a credential, a catalog indicator and an answer holding at least
    one present value, the run completes without any error message: it
    renders one chart, the statistics, the catalog's description of the
    indicator (never the fallback text), and ends with the footer. *)
Theorem run_with_data_completes (W : World) (ui : Widgets) (key : string)
        (ind : indicator) (obs : list (Timestamp * float)) :
  FRED_API_KEY W = Some key -> key <> "" -> Fred_ctor W key = None ->
  dict_get indicators (selected_indicator ui) = Some ind ->
  get_series W (series_id ind) (now W - quarters ui * 91) (now W) = inr obs ->
  (1 <= count (map snd obs))%nat ->
  result_of (main W ui) = Ok tt /\
  error_messages (events_of (main W ui)) = [] /\
  (exists fig, charts (events_of (main W ui)) = [fig]) /\
  (exists st, result_of (key_statistics (table_of ui ind obs) (ind_units ind)) = Ok st) /\
  (exists desc,
      dict_get descriptions (selected_indicator ui) = Some desc /\
      In (StMarkdown desc) (events_of (main W ui))) /\
  (exists before, events_of (main W ui) = before ++ footer_events).
Proof.
  intros Hk Hne Hc Hi Hg Hcount.
  destruct obs as [| o obs]; [cbn in Hcount; lia |].
  destruct (main_with_data W ui key ind o obs Hk Hne Hc Hi Hg) as (fig & Hfig & ->).
  set (d := table_of ui ind (o :: obs)) in *.
  assert (Hcd : (1 <= count (values d))%nat)
    by (unfold d; rewrite values_table_of; exact Hcount).
  destruct (key_statistics_returns d (ind_units ind) Hcd)
    as (st & es & i & j & Hks & _).
  destruct (key_statistics_shows d (ind_units ind)) as [Hes _].
  rewrite Hks in *. unfold emits_only in Hes.
  cbn [events_of result_of fst snd] in *.
  apply stats_events in Hes. destruct Hes as (Hr & Hch & Her & _).
  destruct (catalog_described _ _ Hi) as (desc & Hdesc).
  split; [reflexivity |].
  split; [split_events; rewrite Her; reflexivity |].
  split; [exists fig; split_events; rewrite Hch; reflexivity |].
  split; [exists st; reflexivity |].
  split.
  - exists desc. split; [exact Hdesc |].
    cbn [after_statistics]. rewrite Hdesc.
    do 5 (apply in_or_app; right). cbn [app]. right. left. reflexivity.
  - cbn [after_statistics]. eexists.
    rewrite !app_assoc. reflexivity.
Qed.

Lemma run_with_data_completes_witness :
  result_of (main Scenario2.W_monthly Scenario.ui_unrate) = Ok tt /\
  error_messages (events_of (main Scenario2.W_monthly Scenario.ui_unrate)) = [] /\
  (exists fig, charts (events_of (main Scenario2.W_monthly Scenario.ui_unrate)) = [fig]) /\
  (exists st,
      result_of (key_statistics
                   (table_of Scenario.ui_unrate Scenario2.unrate Scenario2.monthly_obs)
                   (ind_units Scenario2.unrate)) = Ok st) /\
  (exists desc,
      dict_get descriptions (selected_indicator Scenario.ui_unrate) = Some desc /\
      In (StMarkdown desc) (events_of (main Scenario2.W_monthly Scenario.ui_unrate))) /\
  (exists before,
      events_of (main Scenario2.W_monthly Scenario.ui_unrate) = before ++ footer_events).
Proof.
  apply (run_with_data_completes Scenario2.W_monthly Scenario.ui_unrate
           "0123456789abcdef0123456789abcdef" Scenario2.unrate
           Scenario2.monthly_obs); try reflexivity.
  - discriminate.
  - vm_compute; lia.
Defined.

(** When every value of the answer is missing, the chart is still rendered,
    then the statistics fail: the user sees one generic error message,
    and what follows the statistics, the footer included, is not shown. *)
Theorem run_all_missing_fails_after_chart (W : World) (ui : Widgets) (key : string)
        (ind : indicator) (obs : list (Timestamp * float)) :
  FRED_API_KEY W = Some key -> key <> "" -> Fred_ctor W key = None ->
  dict_get indicators (selected_indicator ui) = Some ind ->
  get_series W (series_id ind) (now W - quarters ui * 91) (now W) = inr obs ->
  obs <> [] ->
  count (map snd obs) = 0%nat ->
  result_of (main W ui) = Ok tt /\
  (exists fig, charts (events_of (main W ui)) = [fig]) /\
  (exists m, error_messages (events_of (main W ui)) = [m] /\
             String.prefix "An error occurred: " m = true) /\
  ~ In (StSidebar "---") (events_of (main W ui)).
Proof.
  intros Hk Hne Hc Hi Hg Hobs Hcount.
  destruct obs as [| o obs]; [congruence |].
  destruct (main_with_data W ui key ind o obs Hk Hne Hc Hi Hg) as (fig & Hfig & ->).
  set (d := table_of ui ind (o :: obs)) in *.
  assert (Hcd : count (values d) = 0%nat)
    by (unfold d; rewrite values_table_of; exact Hcount).
  destruct (key_statistics_all_missing d (ind_units ind) Hcd) as (e & es & Hks).
  destruct (key_statistics_shows d (ind_units ind)) as [Hes _].
  rewrite Hks in *. unfold emits_only in Hes.
  cbn [events_of result_of fst snd] in *.
  apply stats_events in Hes. destruct Hes as (Hr & Hch & Her & Hno).
  split; [reflexivity |].
  split; [exists fig; split_events; rewrite Hch; reflexivity |].
  split.
  - eexists. split_events. rewrite Her. split; [reflexivity |].
    apply prefix_append.
  - intros Hin. repeat (apply in_app_or in Hin; destruct Hin as [Hin | Hin]);
      try (cbn in Hin; intuition discriminate).
Qed.

Lemma run_all_missing_fails_after_chart_witness :
  result_of (main Scenario2.W_missing Scenario.ui_unrate) = Ok tt /\
  (exists fig, charts (events_of (main Scenario2.W_missing Scenario.ui_unrate)) = [fig]) /\
  (exists m,
      error_messages (events_of (main Scenario2.W_missing Scenario.ui_unrate)) = [m] /\
      String.prefix "An error occurred: " m = true) /\
  ~ In (StSidebar "---") (events_of (main Scenario2.W_missing Scenario.ui_unrate)).
Proof.
  apply (run_all_missing_fails_after_chart Scenario2.W_missing Scenario.ui_unrate
           "0123456789abcdef0123456789abcdef" Scenario2.unrate
           Scenario2.missing_obs); try reflexivity; discriminate.
Defined.

End RunFacts.

(** ** The statistics shown *)

Module StatisticsFacts.
Import Float64 Float64Facts Numpy NumpyFacts Pandas PandasFacts App AppSpec Trace TraceFacts.

Lemma present_in_fillna (fill v : float) (s : Series) :
  In v s -> isnan v = false -> In v (fillna fill s).
Proof.
  intros Hin Hn. unfold fillna. apply in_map_iff. exists v.
  rewrite Hn. auto.
Qed.

Lemma count_pos_present (s : Series) :
  (1 <= count s)%nat -> exists v, In v s /\ isnan v = false.
Proof.
  unfold count. intros H.
  destruct (filter (fun v => negb (isnan v)) s) as [| v t] eqn:E; [cbn in H; lia |].
  assert (Hin : In v (filter (fun v => negb (isnan v)) s)) by (rewrite E; left; auto).
  apply filter_In in Hin. destruct Hin as [Hin Hn].
  exists v. split; [exact Hin |]. destruct (isnan v); [discriminate | reflexivity].
Qed.

Lemma last_In {A} (s : list A) (d : A) : s <> [] -> In (last s d) s.
Proof.
  intros Hs. eapply nth_error_In. apply (nth_error_last s d Hs).
Qed.

(** Whenever the statistics are shown, the minimum does not exceed the
    maximum, and the latest value, when present, lies between the two. *)
Theorem statistics_ordered (d : data_dict) (unit_label : string)
        (st : SummaryStats) (es : list event) :
  key_statistics d unit_label = (Ok st, es) ->
  leb (min_val st) (max_val st) = true /\
  (isnan (latest_value st) = false ->
   leb (min_val st) (latest_value st) = true /\
   leb (latest_value st) (max_val st) = true).
Proof.
  intros Hks.
  assert (Hc : (1 <= count (values d))%nat).
  { destruct (count (values d)) eqn:E; [| lia].
    destruct (key_statistics_all_missing d unit_label E) as (e & es' & H).
    congruence. }
  destruct (key_statistics_returns d unit_label Hc)
    as (st' & es' & i & j & Hk & Hl & _ & _ & _ & _ & _ & _ & Hmin & _ & Hmax & _).
  rewrite Hks in Hk. inversion Hk. subst st' es'. clear Hk.
  destruct Hmin as (bi & _ & _ & Hmi & Hmall).
  destruct Hmax as (bj & _ & _ & Hxi & Hxall).
  unfold Numpy.le_op in Hmall. unfold Numpy.ge_op in Hxall.
  pose proof (fillna_nan_free pos_inf (values d) eq_refl) as Hnf1.
  pose proof (fillna_nan_free neg_inf (values d) eq_refl) as Hnf2.
  unfold nan_free in Hnf1, Hnf2. rewrite Forall_forall in Hnf1, Hnf2.
  assert (Hmn : isnan (min_val st) = false) by (apply Hnf1; exact Hmi).
  assert (Hxn : isnan (max_val st) = false) by (apply Hnf2; exact Hxi).
  assert (Hbetween : forall v, In v (values d) -> isnan v = false ->
                               leb (min_val st) v = true /\ leb v (max_val st) = true).
  { intros v Hin Hn. split.
    - apply (Hmall v). apply present_in_fillna; assumption.
    - apply (Hxall v). apply present_in_fillna; assumption. }
  split.
  - destruct (count_pos_present (values d) Hc) as (v & Hin & Hn).
    destruct (Hbetween v Hin Hn) as [H1 H2].
    exact (leb_trans (min_val st) v (max_val st) Hmn Hn Hxn H1 H2).
  - intros Hln. apply Hbetween; [| exact Hln].
    rewrite Hl. apply last_In.
    intros E. rewrite E in Hc. cbn in Hc. lia.
Qed.

Lemma statistics_ordered_witness :
  exists st es,
    key_statistics Scenario.d_unrate "Percent" = (Ok st, es) /\
    leb (min_val st) (max_val st) = true /\
    (isnan (latest_value st) = false ->
     leb (min_val st) (latest_value st) = true /\
     leb (latest_value st) (max_val st) = true).
Proof.
  eexists _, _. split; [vm_compute; reflexivity |].
  eapply (statistics_ordered Scenario.d_unrate "Percent").
  vm_compute. reflexivity.
Defined.

End StatisticsFacts.

(** ** Setting up logging again, and writing through the file handler *)

Module LoggingFacts.
Import LoggerConfig LoggerConfigSpec LogWriting.

(** Each run of the script sets logging up anew.  The handlers of the
    earlier set-up are replaced, not added to: the logger has its two
    handlers again, and a record reaches the console and the file once
    each at most. *)
Theorem setup_logging_replaces_handlers (b1 b2 : bool) (d1 d2 : string)
        (existing : list Handler) :
  let earlier := fst (setup_logging b1 d1 existing) in
  let lg := fst (setup_logging b2 d2 (lg_handlers earlier)) in
  lg = fst (setup_logging b2 d2 []) /\
  length (lg_handlers lg) = 2%nat /\
  (forall lvl,
      (length (filter is_console (dispatch lg lvl)) <= 1)%nat /\
      (length (filter is_file (dispatch lg lvl)) <= 1)%nat).
Proof.
  cbn zeta. unfold setup_logging. cbn [fst lg_handlers].
  assert (E : match existing with [] => existing | _ :: _ => [] end = [])
    by (destruct existing; reflexivity).
  rewrite E. cbn [app].
  split; [reflexivity |]. split; [reflexivity |].
  intros lvl. destruct lvl; cbn; lia.
Qed.

Lemma write_all_invariant (lens : list Z) :
  forall fs,
    (length (backups fs) <= 5)%nat ->
    0 <= base_size fs < 10 * 1024 * 1024 ->
    Forall (fun len => 0 <= len < 10 * 1024 * 1024) lens ->
    (length (backups (write_all (10 * 1024 * 1024) 5 fs lens)) <= 5)%nat /\
    0 <= base_size (write_all (10 * 1024 * 1024) 5 fs lens) < 10 * 1024 * 1024.
Proof.
  unfold write_all.
  induction lens as [| len lens IH]; intros fs Hb Hs Hl; cbn [fold_left];
    [split; assumption |].
  inversion Hl as [| ? ? Hlen Hrest]; subst.
  apply IH; [| | exact Hrest].
  - change 5%nat with (Z.to_nat 5). apply emit_record_backups; [lia | exact Hb].
  - unfold emit_record, shouldRollover, doRollover.
    change (0 <? 10 * 1024 * 1024) with true. change (0 <? 5) with true.
    cbn [andb].
    destruct (Z.leb_spec (10 * 1024 * 1024) (base_size fs + len));
      cbn [base_size]; lia.
Qed.

(** With the handler as configured, however many records are written (each
    shorter than the limit), the base file stays below 10 MB and never more
    than 5 backups exist. *)
Theorem rotation_bounds_the_log_files (fs : log_files) (lens : list Z) :
  (length (backups fs) <= 5)%nat ->
  0 <= base_size fs < 10 * 1024 * 1024 ->
  Forall (fun len => 0 <= len < 10 * 1024 * 1024) lens ->
  forall date logs_exist existing,
    rotating_file (lg_handlers (fst (setup_logging logs_exist date existing)))
      = Some (log_file_of_date date, 10 * 1024 * 1024, 5) /\
    (length (backups (write_all (10 * 1024 * 1024) 5 fs lens)) <= 5)%nat /\
    0 <= base_size (write_all (10 * 1024 * 1024) 5 fs lens) < 10 * 1024 * 1024.
Proof.
  intros Hb Hs Hl date logs_exist existing. split.
  - unfold setup_logging. destruct existing; reflexivity.
  - apply write_all_invariant; assumption.
Qed.

Lemma rotation_bounds_the_log_files_witness :
  rotating_file (lg_handlers (fst (setup_logging true "2026-11-03" [])))
    = Some (log_file_of_date "2026-11-03", 10 * 1024 * 1024, 5) /\
  (length (backups (write_all (10 * 1024 * 1024) 5 Scenario2.files_near_limit
                              Scenario2.three_records)) <= 5)%nat /\
  0 <= base_size (write_all (10 * 1024 * 1024) 5 Scenario2.files_near_limit
                            Scenario2.three_records)
    < 10 * 1024 * 1024.
Proof.
  apply (rotation_bounds_the_log_files Scenario2.files_near_limit
                                       Scenario2.three_records).
  - cbn. lia.
  - cbn. lia.
  - repeat constructor; lia.
Defined.

Example rotation_near_limit :
  write_all (10 * 1024 * 1024) 5 Scenario2.files_near_limit Scenario2.three_records
  = {| base_size := 10485500; backups := [10485500; 10485700; 10485000; 3; 4] |}.
Proof. reflexivity. Qed.

End LoggingFacts.
